(** * rosbag2csv: the flattener, the streaming exporter and the header regrouper

    A shallow embedding of [rosbag2csv.py].  Python objects are an inductive
    type, generators are the list of what they yield, exceptions are [None]
    or an explicit outcome, and printing to a file is an event of a trace. *)

From Stdlib Require Import ZArith List String Ascii Bool Lia Arith.
From Stdlib Require Import DecimalString DecimalNat.
From Stdlib Require Import Floats.
Import ListNotations.

Local Open Scope list_scope.
Local Open Scope string_scope.

(** ** Python strings *)

Module Py.

(** [s.startswith(pre)] *)
Definition startswith (s pre : string) : bool := String.prefix pre s.

(** [str(i)] for a non-negative index, as [enumerate] produces them. *)
Definition str_nat (i : nat) : string :=
  NilEmpty.string_of_uint (Nat.to_uint i).

(** The truth value of a string: [if prefix]. *)
Definition truthy (s : string) : bool :=
  match s with EmptyString => false | String _ _ => true end.

(** [sep.join(parts)] *)
Definition join (sep : string) (parts : list string) : string :=
  String.concat sep parts.

(** [s.lstrip(c)] for a one-character argument. *)
Fixpoint lstrip (c : ascii) (s : string) : string :=
  match s with
  | String a rest => if Ascii.eqb a c then lstrip c rest else s
  | EmptyString => EmptyString
  end.

(** [s.replace(a, b)] for one-character [a] and [b]. *)
Fixpoint replace (a b : ascii) (s : string) : string :=
  match s with
  | String x rest => String (if Ascii.eqb x a then b else x) (replace a b rest)
  | EmptyString => EmptyString
  end.

(** [s.split(sep, maxsplit)] for a one-character separator: at most
    [maxsplit] cuts, from the left; what is left after the last cut is the
    last component, whatever it holds. *)
Fixpoint split (sep : ascii) (maxsplit : nat) (s : string) : list string :=
  match s with
  | EmptyString => [EmptyString]
  | String a rest =>
      match maxsplit with
      | O => [s]
      | S m =>
          if Ascii.eqb a sep
          then EmptyString :: split sep m rest
          else match split sep maxsplit rest with
               | h :: t => String a h :: t
               | [] => [String a EmptyString]
               end
      end
  end.

(** [x in xs] on strings. *)
Definition str_in (x : string) (xs : list string) : bool :=
  existsb (String.eqb x) xs.

End Py.

(** ** Python values, as the deserializer hands them over *)

(** Leaves of a message: numbers, booleans and strings. *)
Inductive pyscalar : Type :=
| SInt (z : Z)
| SFloat (f : float)
| SBool (b : bool)
| SStr (s : string).

#[local] Unset Elimination Schemes.

(** A deserialized value.  [PyList] is a Python [list]; [Msg] is an object
    with [get_fields_and_field_types], given as its fields in declaration
    order, each with its type string and its attribute value; [Arr] is an
    iterable that is neither ([array.array], [numpy.ndarray]). *)
Inductive value : Type :=
| Leaf (a : pyscalar)
| Arr (items : list value)
| PyList (items : list value)
| Msg (fields : list (string * string * value)).

#[local] Set Elimination Schemes.

(** Induction over [value] with the hypotheses on the nested lists. *)
Section ValueInd.
Variable P : value -> Prop.
Hypothesis HLeaf : forall a, P (Leaf a).
Hypothesis HArr : forall items, Forall P items -> P (Arr items).
Hypothesis HList : forall items, Forall P items -> P (PyList items).
Hypothesis HMsg : forall fields,
    Forall (fun fd => P (snd fd)) fields -> P (Msg fields).

Fixpoint value_nested_ind (v : value) : P v :=
  match v with
  | Leaf a => HLeaf a
  | Arr items =>
      HArr items
        ((fix go (l : list value) : Forall P l :=
            match l with
            | [] => Forall_nil P
            | x :: r => Forall_cons x (value_nested_ind x) (go r)
            end) items)
  | PyList items =>
      HList items
        ((fix go (l : list value) : Forall P l :=
            match l with
            | [] => Forall_nil P
            | x :: r => Forall_cons x (value_nested_ind x) (go r)
            end) items)
  | Msg fields =>
      HMsg fields
        ((fix go (l : list (string * string * value))
           : Forall (fun fd => P (snd fd)) l :=
            match l with
            | [] => Forall_nil _
            | fd :: r => Forall_cons fd (value_nested_ind (snd fd)) (go r)
            end) fields)
  end.
End ValueInd.

(** ** The flattener: [_gen_msg_values] *)

(** What the generator yields, in order; [None] is the [TypeError] of
    [enumerate] on an object that is not iterable. *)
Definition pairs : Type := option (list (string * value)).

Definition chain (a b : pairs) : pairs :=
  match a, b with
  | Some xs, Some ys => Some (xs ++ ys)%list
  | _, _ => None
  end.

(** [f"{prefix}[{i}]"] *)
Definition index_path (prefix : string) (i : nat) : string :=
  prefix ++ "[" ++ Py.str_nat i ++ "]".

(** [prefix + "." + field if prefix else field] *)
Definition full_field_name (prefix field : string) : string :=
  if Py.truthy prefix then prefix ++ "." ++ field else field.

(** The last branch: [yield prefix, msg]. *)
Definition yield_leaf (msg : value) (prefix : string) : pairs :=
  Some [(prefix, msg)].

(** Iterating a [str] gives its characters, each a [str] of length one. *)
Definition chars (s : string) : list value :=
  map (fun c => Leaf (SStr (String c EmptyString))) (list_ascii_of_string s).

(** [enumerate] over items that are leaves: the recursive call on each takes
    the last branch at once. *)
Fixpoint enum_leaves (prefix : string) (i : nat) (items : list value)
  : list (string * value) :=
  match items with
  | [] => []
  | val :: rest => (index_path prefix i, val) :: enum_leaves prefix (S i) rest
  end.

Section Loops.
Variable rec : value -> string -> pairs.

(** [for i, val in enumerate(items): yield from rec(val, f"{prefix}[{i}]")],
    the counter starting at [i]. *)
Fixpoint enum_from (prefix : string) (i : nat) (items : list value) : pairs :=
  match items with
  | [] => Some []
  | val :: rest =>
      chain (rec val (index_path prefix i)) (enum_from prefix (S i) rest)
  end.

(** The body of the loop over the fields of a message. *)
Definition one_field (prefix : string) (fd : string * string * value) : pairs :=
  let '(field, type_, val) := fd in
  let name := full_field_name prefix field in
  if Py.startswith type_ "sequence<" then
    match val with
    | PyList items | Arr items => enum_from name 0 items
    | Leaf (SStr s) => Some (enum_leaves name 0 (chars s))
    | _ => None
    end
  else rec val name.

(** [for field, type_ in msg.get_fields_and_field_types().items(): ...] *)
Fixpoint each_field (prefix : string) (fields : list (string * string * value))
  : pairs :=
  match fields with
  | [] => Some []
  | fd :: rest => chain (one_field prefix fd) (each_field prefix rest)
  end.
End Loops.

Fixpoint _gen_msg_values (msg : value) (prefix : string) {struct msg} : pairs :=
  match msg with
  | PyList items => enum_from _gen_msg_values prefix 0 items
  | Msg fields => each_field _gen_msg_values prefix fields
  | _ => yield_leaf msg prefix
  end.

(** *** The reference count and the shape of a message *)






(** No character of [s] satisfies [p]. *)
Fixpoint free_of (p : ascii -> bool) (s : string) : bool :=
  match s with
  | EmptyString => true
  | String c rest => negb (p c) && free_of p rest
  end.






(** ** Python numbers: the time stamps *)

(** An [int] or a [float]; arithmetic on two ints stays an int, anything else
    is done on doubles. *)
Inductive pynum : Type :=
| PInt (z : Z)
| PFloat (f : float).

(** [float(z)]: the nearest double, ties to even. *)
Definition float_of_Z (z : Z) : float :=
  SF2Prim (SpecFloat.binary_normalize prec emax z 0 false).

Definition to_float (n : pynum) : float :=
  match n with
  | PInt z => float_of_Z z
  | PFloat f => f
  end.

Definition py_add (a b : pynum) : pynum :=
  match a, b with
  | PInt x, PInt y => PInt (x + y)
  | _, _ => PFloat (to_float a + to_float b)
  end.

Definition py_sub (a b : pynum) : pynum :=
  match a, b with
  | PInt x, PInt y => PInt (x - y)
  | _, _ => PFloat (to_float a - to_float b)
  end.

Definition py_mul (a b : pynum) : pynum :=
  match a, b with
  | PInt x, PInt y => PInt (x * y)
  | _, _ => PFloat (to_float a * to_float b)
  end.

(** The literal [1e-9]: the double nearest to it. *)
Definition nano : pynum := PFloat 0x1.12e0be826d695p-30.

(** The number a leaf stands for in arithmetic; [None] is a [TypeError]. *)
Definition as_num (v : value) : option pynum :=
  match v with
  | Leaf (SInt z) => Some (PInt z)
  | Leaf (SFloat f) => Some (PFloat f)
  | Leaf (SBool b) => Some (PInt (if b then 1 else 0))
  | _ => None
  end.



(** [getattr(o, name)] on a message; [None] is an [AttributeError]. *)
Fixpoint lookup_field (name : string) (fields : list (string * string * value))
  : option value :=
  match fields with
  | [] => None
  | (field, _, val) :: rest =>
      if String.eqb field name then Some val else lookup_field name rest
  end.

Definition getattr (o : value) (name : string) : option value :=
  match o with
  | Msg fields => lookup_field name fields
  | _ => None
  end.

Definition hasattr (o : value) (name : string) : bool :=
  match getattr o name with Some _ => true | None => false end.

(** ** The streaming exporter: [dump_bag] *)

(** One [(topic, data, ts) = reader.read_next()], with [data] already through
    [deserialize_message]. *)
Record entry : Type := { topic : string; msg : value; ts : Z }.

(** A line printed to a channel's file.  [Header text] is the text itself;
    [Row rel vals] stands for [','.join([str(rel)] + [str(v) for v in vals])]. *)
Inductive line : Type :=
| Header (text : string)
| Row (rel : pynum) (vals : list value).

(** What the script does to the outside, in the order it does it: [Open] is
    [open(path, "w")] returning the file object [fd], [Print] is
    [print(..., file=fd)], [Close] is [fd.close()], [Progress] and [Say] are
    prints to the standard output, [Complain] one to the standard error,
    [ReadCsv] and [ToCsv] the two pandas calls.  What the interpreter does on
    its own when a file object is released is not an event. *)
Inductive event : Type :=
| Open (fd : nat) (path : string)
| Print (fd : nat) (l : line)
| Close (fd : nat)
| Progress (rel : pynum)
| ReadCsv (path : string)
| ToCsv (path : string)
| Say (text : string)
| Complain (text : string).

(** A computation that leaves events behind and may raise ([None]). *)
Definition io (A : Type) : Type := list event * option A.

Definition ret {A : Type} (a : A) : io A := ([], Some a).
Definition emit (e : event) : io unit := ([e], Some tt).
Definition lift {A : Type} (o : option A) : io A := ([], o).
Definition bind {A B : Type} (m : io A) (k : A -> io B) : io B :=
  match m with
  | (evs, None) => (evs, None)
  | (evs, Some a) => let '(evs', r) := k a in ((evs ++ evs')%list, r)
  end.

Declare Scope io_scope.
Delimit Scope io_scope with io.
Notation "x <- m ;; k" := (bind m (fun x => k))
  (at level 61, m at next level, right associativity) : io_scope.
Notation "m ;;; k" := (bind m (fun _ => k))
  (at level 61, right associativity) : io_scope.

(** The local variables of [dump_bag]; [next_fd] names the next file object
    [open] returns. *)
Record state : Type := {
  file_map : list (string * nat);
  start_time : option pynum;
  msg_cnt : nat;
  next_fd : nat
}.

Definition initial : state :=
  {| file_map := []; start_time := None; msg_cnt := 0; next_fd := 0 |}.

(** [file_map[topic]] and [topic in file_map]. *)
Fixpoint lookup (topic : string) (m : list (string * nat)) : option nat :=
  match m with
  | [] => None
  | (k, fd) :: rest => if String.eqb k topic then Some fd else lookup topic rest
  end.

Definition excluded (topic : string) : bool :=
  Py.str_in topic ["/rosout"; "/parameter_events"].

(** ["{}/{}.csv".format(bag_path, topic.lstrip("/").replace("/", "_"))] *)
Definition csv_path (bag_path topic : string) : string :=
  bag_path ++ "/" ++ Py.replace "/" "_" (Py.lstrip "/" topic) ++ ".csv".

Definition not_header (field : string) : bool :=
  negb (Py.startswith field "header.").

(** [[field for field, val in _gen_msg_values(msg) if not field.startswith("header.")]] *)
Definition fields_of (m : value) : option (list string) :=
  option_map (fun ps => filter not_header (map fst ps)) (_gen_msg_values m "").

(** [[val for field, val in _gen_msg_values(msg) if not field.startswith("header.")]],
    before [str] is applied. *)
Definition values_of (m : value) : option (list value) :=
  option_map (fun ps => map snd (filter (fun p => not_header (fst p)) ps))
             (_gen_msg_values m "").

Definition header_text (fields : list string) : string :=
  "time," ++ Py.join "," fields.

(** [msg.header.stamp.sec + 1e-9*msg.header.stamp.nanosec] if the message has
    a [header], else [ts]. *)
Definition row_time (e : entry) : option pynum :=
  match getattr (msg e) "header" with
  | Some header =>
      match getattr header "stamp" with
      | Some stamp =>
          match getattr stamp "sec", getattr stamp "nanosec" with
          | Some sec, Some nanosec =>
              match as_num sec, as_num nanosec with
              | Some a, Some b => Some (py_add a (py_mul nano b))
              | _, _ => None
              end
          | _, _ => None
          end
      | None => None
      end
  | None => Some (PInt (ts e))
  end.

Local Open Scope io_scope.

(** The [if topic not in file_map] block. *)
Definition ensure_file (bag_path : string) (st : state) (e : entry) : io state :=
  match lookup (topic e) (file_map st) with
  | Some _ => ret st
  | None =>
      let file := next_fd st in
      emit (Open file (csv_path bag_path (topic e))) ;;;
      fields <- lift (fields_of (msg e)) ;;
      emit (Print file (Header (header_text fields))) ;;;
      ret {| file_map := (topic e, file) :: file_map st;
             start_time := start_time st;
             msg_cnt := msg_cnt st;
             next_fd := S file |}
  end.

(** One turn of the [while reader.has_next()] loop. *)
Definition dump_entry (bag_path : string) (st : state) (e : entry) : io state :=
  if excluded (topic e) then ret st
  else
    st1 <- ensure_file bag_path st e ;;
    file <- lift (lookup (topic e) (file_map st1)) ;;
    t <- lift (row_time e) ;;
    let start := match start_time st1 with Some s => s | None => t end in
    vals <- lift (values_of (msg e)) ;;
    emit (Print file (Row (py_sub t start) vals)) ;;;
    (if Nat.eqb (msg_cnt st1 mod 1000) 0
     then emit (Progress (py_sub t start)) else ret tt) ;;;
    ret {| file_map := file_map st1;
           start_time := Some start;
           msg_cnt := S (msg_cnt st1);
           next_fd := next_fd st1 |}.

Fixpoint dump_loop (bag_path : string) (st : state) (entries : list entry)
  : io state :=
  match entries with
  | [] => ret st
  | e :: rest => st' <- dump_entry bag_path st e ;; dump_loop bag_path st' rest
  end.

(** [dump_bag(bag_path)] over what the reader returns. *)
Definition dump_bag (bag_path : string) (entries : list entry) : io state :=
  dump_loop bag_path initial entries.

Local Close Scope io_scope.

(** The lines printed to the file object [fd], in order. *)
Fixpoint written (fd : nat) (evs : list event) : list line :=
  match evs with
  | [] => []
  | Print fd' l :: rest =>
      if Nat.eqb fd' fd then l :: written fd rest else written fd rest
  | _ :: rest => written fd rest
  end.

(** The time column of every row printed, over all files, in order. *)
Fixpoint row_times (evs : list event) : list pynum :=
  match evs with
  | [] => []
  | Print _ (Row rel _) :: rest => rel :: row_times rest
  | _ :: rest => row_times rest
  end.

(** The progress markers printed, in order. *)
Fixpoint markers (evs : list event) : list pynum :=
  match evs with
  | [] => []
  | Progress rel :: rest => rel :: markers rest
  | _ :: rest => markers rest
  end.

(** The entries the loop does not skip, and those of one channel. *)
Definition processed (entries : list entry) : list entry :=
  filter (fun e => negb (excluded (topic e))) entries.

Definition on_channel (name : string) (entries : list entry) : list entry :=
  filter (fun e => String.eqb (topic e) name) entries.

Definition is_row (l : line) : bool :=
  match l with Row _ _ => true | Header _ => false end.

(** *** File objects and [close] *)

(** The file objects opened and not closed by a [Close] after [evs], given
    those before. *)
Fixpoint unclosed (opened : list (nat * string)) (evs : list event)
  : list (nat * string) :=
  match evs with
  | [] => opened
  | Open fd path :: rest => unclosed ((fd, path) :: opened) rest
  | Close fd :: rest =>
      unclosed (filter (fun o => negb (Nat.eqb (fst o) fd)) opened) rest
  | _ :: rest => unclosed opened rest
  end.

(** Every [ReadCsv] of a path comes after a [Close] of each file object
    opened on it. *)
Fixpoint closed_before_read (opened : list (nat * string)) (evs : list event)
  : bool :=
  match evs with
  | [] => true
  | Open fd path :: rest => closed_before_read ((fd, path) :: opened) rest
  | Close fd :: rest =>
      closed_before_read (filter (fun o => negb (Nat.eqb (fst o) fd)) opened) rest
  | ReadCsv path :: rest =>
      negb (existsb (fun o => String.eqb (snd o) path) opened)
      && closed_before_read opened rest
  | _ :: rest => closed_before_read opened rest
  end.

(** The lines printed to [path] through any file object opened on it, in
    the order they are printed. *)
Fixpoint sent_to (path : string) (opened : list (nat * string))
         (evs : list event) : list line :=
  match evs with
  | [] => []
  | Open fd p :: rest => sent_to path ((fd, p) :: opened) rest
  | Print fd l :: rest =>
      if existsb (fun o => Nat.eqb (fst o) fd && String.eqb (snd o) path) opened
      then l :: sent_to path opened rest
      else sent_to path opened rest
  | _ :: rest => sent_to path opened rest
  end.

(** The file objects [evs] opens, in order. *)
Definition opens (evs : list event) : list (nat * string) :=
  flat_map (fun e => match e with Open fd path => [(fd, path)] | _ => [] end) evs.

Definition is_close (e : event) : bool :=
  match e with Close _ => true | _ => false end.

(** ** The header regrouper: [add_multi_indices] *)

(** The body of [for col in df.columns]. *)
Definition indexes (col : string) : list string :=
  if String.eqb col "time" then ["RosBag"; "timestamp"]
  else if String.eqb col "timestamp" then ["IMUDataArray"; "timestamp"]
  else Py.split "." 2 col.

Definition cols_ (columns : list string) : list (list string) :=
  map indexes columns.

(** A data frame: its column labels and its rows. *)
Record Frame (label cell : Type) : Type := {
  columns : list label;
  body : list (list cell)
}.
Arguments columns {label cell} _.
Arguments body {label cell} _.

Section Regrouper.
(** pandas and the directory, as the script calls them: [read_csv] raises
    ([inl], with the message) or gives a frame with flat labels; [to_csv]
    leaves a new directory behind and may raise too. *)
Variable disk : Type.
Variable cell : Type.
Variable read_csv : disk -> string -> string + Frame string cell.
Variable to_csv :
  disk -> string -> Frame (list string) cell -> disk * option string.
Variable glob_csv : disk -> string -> list string.
(** The directory once the exporter's files have reached it. *)
Variable settle : disk -> list event -> disk.

(** [df.columns = pd.MultiIndex.from_tuples(cols_)] *)
Definition relabel (df : Frame string cell) : Frame (list string) cell :=
  {| columns := cols_ (columns df); body := body df |}.

(** The body of the [try]: the events, the directory left, and the
    exception if one was raised. *)
Definition regroup_file (d : disk) (file : string)
  : list event * disk * option string :=
  match read_csv d file with
  | inl e => ([ReadCsv file], d, Some e)
  | inr df =>
      let '(d', r) := to_csv d file (relabel df) in
      match r with
      | Some e => ([ReadCsv file; ToCsv file], d', Some e)
      | None =>
          ([ReadCsv file; ToCsv file; Say ("Multi-Indexing done for " ++ file)],
           d', None)
      end
  end.

(** [try: ... except Exception as e: print(f"Error: {e}")] *)
Definition guarded (d : disk) (file : string) : list event * disk :=
  match regroup_file d file with
  | (evs, d', None) => (evs, d')
  | (evs, d', Some e) => ((evs ++ [Say ("Error: " ++ e)])%list, d')
  end.

(** [for file in flist] *)
Fixpoint regroup_all (d : disk) (flist : list string) : list event * disk :=
  match flist with
  | [] => ([], d)
  | file :: rest =>
      let '(evs, d') := guarded d file in
      let '(evs', d'') := regroup_all d' rest in
      ((evs ++ evs')%list, d'')
  end.

Definition add_multi_indices (d : disk) (fpath : string) : list event * disk :=
  regroup_all d (glob_csv d fpath).

(** The script: the events, the directory left and the exit status.  An
    exception out of [dump_bag] ends the script before the regrouper. *)
Definition main (argv : list string) (d : disk) (entries : list entry)
  : list event * disk * Z :=
  match argv with
  | [_; bag_path] =>
      match dump_bag bag_path entries with
      | (evs, None) => (evs, settle d evs, 1%Z)
      | (evs, Some _) =>
          let '(evs', d') := add_multi_indices (settle d evs) bag_path in
          ((evs ++ evs')%list, d', 0%Z)
      end
  | _ =>
      ([Complain ("Usage: " ++ hd "" argv ++ " <bag directory>")], d, 1%Z)
  end.

(** The files the pass tried, and those it finished. *)
Definition tried (evs : list event) : list string :=
  flat_map (fun e => match e with ReadCsv f => [f] | _ => [] end) evs.

Definition reports (evs : list event) : list string :=
  flat_map (fun e => match e with Say text => [text] | _ => [] end) evs.
End Regrouper.

(** ** The directory and the two pandas calls, run *)

(** A reading of what the script leaves on disk and of how pandas reads and
    writes it, enough to run the regrouper: a CSV file is its lines, each
    line its cells; [read_csv] takes the first line for the column names;
    [to_csv] writes one header line per level of the column labels. *)
Module Pandas.
Section Model.
(** How the missing level of a short label is written. *)
Variable na_rep : string.
(** The cells of a data row: Python's [str] on the time and the values. *)
Variable str_row : pynum -> list value -> list string.

Definition csv : Type := list (list string).
Definition disk : Type := list (string * csv).

Fixpoint read (d : disk) (file : string) : option csv :=
  match d with
  | [] => None
  | (name, c) :: rest => if String.eqb name file then Some c else read rest file
  end.

Fixpoint write (d : disk) (file : string) (c : csv) : disk :=
  match d with
  | [] => [(file, c)]
  | (name, old) :: rest =>
      if String.eqb name file then (name, c) :: rest
      else (name, old) :: write rest file c
  end.

Definition read_csv (d : disk) (file : string) : string + Frame string string :=
  match read d file with
  | None => inl "No such file or directory"
  | Some [] => inl "No columns to parse from file"
  | Some (names :: rows) => inr {| columns := names; body := rows |}
  end.

Definition nlevels (labels : list (list string)) : nat :=
  fold_right Nat.max 0 (map (@List.length string) labels).

Definition level (i : nat) (labels : list (list string)) : list string :=
  map (fun l => nth i l na_rep) labels.

Definition header_lines (labels : list (list string)) : csv :=
  map (fun i => level i labels) (seq 0 (nlevels labels)).

Definition to_csv (d : disk) (file : string) (df : Frame (list string) string)
  : disk * option string :=
  (write d file (header_lines (columns df) ++ body df)%list, None).

(** The cells of a printed line. *)
Definition cells_of (l : line) : list string :=
  match l with
  | Header text => Py.split "," (String.length text) text
  | Row rel vals => str_row rel vals
  end.

Definition csv_of (lines : list line) : csv := map cells_of lines.

(** Every path the exporter opened holds what was printed to its file
    object; where two file objects share a path the later one is kept (what
    the operating system leaves in that case is outside this reading). *)
Fixpoint settle_from (all : list event) (d : disk) (evs : list event) : disk :=
  match evs with
  | [] => d
  | Open fd path :: rest =>
      settle_from all (write d path (csv_of (written fd all))) rest
  | _ :: rest => settle_from all d rest
  end.

Definition settle (d : disk) (evs : list event) : disk := settle_from evs d evs.

(** [name] without the prefix [pre], if it starts with it. *)
Fixpoint strip_prefix (pre name : string) : option string :=
  match pre, name with
  | EmptyString, _ => Some name
  | String a pre', String b name' =>
      if Ascii.eqb a b then strip_prefix pre' name' else None
  | String _ _, EmptyString => None
  end.

Fixpoint endswith (s suffix : string) : bool :=
  String.eqb s suffix
  || match s with
     | EmptyString => false
     | String _ rest => endswith rest suffix
     end.

(** [fpath.glob('*.csv')] *)
Definition glob_csv (d : disk) (fpath : string) : list string :=
  filter (fun file =>
            match strip_prefix (fpath ++ "/") file with
            | Some name => free_of (Ascii.eqb "/") name && endswith name ".csv"
            | None => false
            end) (map fst d).

Definition run_guarded := guarded disk string read_csv to_csv.
Definition run_regroup_all := regroup_all disk string read_csv to_csv.
Definition run_main := main disk string read_csv to_csv glob_csv settle.

(** The column labels one pass computes for a file. *)
Definition labels_of_pass (d : disk) (file : string)
  : option (list (list string)) :=
  match read_csv d file with
  | inr df => Some (cols_ (columns df))
  | inl _ => None
  end.

(** The frame one pass hands to [to_csv] for a file. *)
Definition frame_of_pass (d : disk) (file : string)
  : option (Frame (list string) string) :=
  match read_csv d file with
  | inr df => Some (relabel string df)
  | inl _ => None
  end.
End Model.
End Pandas.

(** ** Sample messages *)

Module Samples.

Definition int_field (name : string) (z : Z) : string * string * value :=
(name, "int32", Leaf (SInt z)).

(** Scenario A: [{x: 1, y: {a: 2, b: 3}}]. *)
Definition scenario_A : value :=
Msg [int_field "x" 1;
     ("y", "pkg/Inner", Msg [int_field "a" 2; int_field "b" 3])].

(** Scenario B: [items: [{v:1},{v:2}]]. *)
Definition scenario_B : value :=
Msg [("items", "sequence<pkg/Item>",
      PyList [Msg [int_field "v" 1]; Msg [int_field "v" 2]])].


Definition stamp (sec nanosec : Z) : string * string * value :=
("header", "std_msgs/Header",
 Msg [("stamp", "builtin_interfaces/Time",
       Msg [("sec", "int32", Leaf (SInt sec));
            ("nanosec", "uint32", Leaf (SInt nanosec))]);
      ("frame_id", "string", Leaf (SStr "base"))]).

(** A message with a header and one nested value. *)
Definition stamped (sec nanosec : Z) (a : Z) : value :=
Msg [stamp sec nanosec; ("y", "pkg/Inner", Msg [int_field "a" a])].

(** Scenario C: two records on one channel, half a second apart. *)
Definition scenario_C : list entry :=
[ {| topic := "/imu"; msg := stamped 10 0 1; ts := 1 |};
  {| topic := "/imu"; msg := stamped 10 500000000 2; ts := 2 |} ].

(** A message with a header and a nested field called [timestamp]. *)
Definition timed (sec nanosec : Z) (at_sec : Z) : value :=
Msg [stamp sec nanosec;
     ("timestamp", "builtin_interfaces/Time", Msg [int_field "sec" at_sec])].

Definition timed_run : list entry :=
[ {| topic := "/clock"; msg := timed 10 0 3; ts := 1 |} ].

(** Two channels whose names differ only by [/] against [_], taking turns. *)
Definition clash : list entry :=
[ {| topic := "/a/b"; msg := scenario_A; ts := 100 |};
  {| topic := "/a_b"; msg := scenario_B; ts := 105 |};
  {| topic := "/a/b"; msg := scenario_A; ts := 109 |} ].


Definition old_dir : Pandas.disk :=
[("bag/old.csv", []); ("bag/imu.csv", [["time"; "y.a"]; ["0.0"; "1"]])].

(** A message without a field at all ([std_msgs/Empty]). *)
Definition empty_msg : value := Msg [].

End Samples.

(** ** Paths under a prefix *)


Definition paths (l : list (string * value)) : list string := map fst l.

(** The items [enumerate] walks over in a [list] or an array. *)
Definition items_of (v : value) : list value :=
  match v with
  | Arr items | PyList items => items
  | _ => []
  end.



(** The separator of column names. *)
Definition is_char (sep c : ascii) : bool := Ascii.eqb c sep.
Definition is_dot : ascii -> bool := is_char ".".

(** What is shown of the flattener, value by value. *)






(** Whether the turn of the loop on the entry at position [n] (from 0)
    prints a progress marker. *)
Definition marker_at (bag : string) (entries : list entry) (n : nat) : bool :=
  match dump_bag bag (firstn n entries), nth_error entries n with
  | (_, Some st), Some e =>
      match markers (fst (dump_entry bag st e)) with
      | [] => false
      | _ :: _ => true
      end
  | _, _ => false
  end.

(** The origin the rows of a run are relative to, given the state the run
    starts from and the times of the entries it processes. *)
Definition origin_of (st : state) (times : list pynum) : option pynum :=
  match start_time st with
  | Some s => Some s
  | None => hd_error times
  end.

(** What holds of [file_map] and [next_fd] all along a run: the file objects
    in the map were handed out before [next_fd], belong to channels that are
    not skipped, and no two channels share one. *)
Definition consistent (st : state) : Prop :=
  (forall name fd, lookup name (file_map st) = Some fd ->
                   fd < next_fd st /\ excluded name = false)
  /\ (forall n1 n2 fd, lookup n1 (file_map st) = Some fd ->
                       lookup n2 (file_map st) = Some fd -> n1 = n2).


(** ** Further vocabulary *)

Definition is_some {A : Type} (o : option A) : bool :=
  match o with Some _ => true | None => false end.

(** A pair with [p] put in front of its path. *)
Definition shift (p : string) (x : string * value) : string * value :=
  (p ++ fst x, snd x).

(** Every object the flattener calls [enumerate] on accepts it: the walk is
    the flattener's own, so an array that is yielded whole is not looked
    into. *)
Fixpoint enumerable (v : value) : bool :=
  match v with
  | Leaf _ | Arr _ => true
  | PyList items => forallb enumerable items
  | Msg fields =>
      forallb (fun fd : string * string * value =>
                 let '(_, type_, val) := fd in
                 if Py.startswith type_ "sequence<" then
                   match val with
                   | PyList items | Arr items => forallb enumerable items
                   | Leaf (SStr _) => true
                   | _ => false
                   end
                 else enumerable val) fields
  end.

(** The pairs of a message that make its columns. *)
Definition kept (flat : list (string * value)) : list (string * value) :=
  filter (fun p => not_header (fst p)) flat.

(** The channels that get a file, in the order they first appear, given the
    channels that have one. *)
Fixpoint new_channels (seen : list string) (entries : list entry) : list string :=
  match entries with
  | [] => []
  | e :: rest =>
      if excluded (topic e) || Py.str_in (topic e) seen
      then new_channels seen rest
      else topic e :: new_channels (topic e :: seen) rest
  end.

(** The row of an entry, given the origin. *)
Definition row_of (origin : pynum) (e : entry) : option line :=
  match row_time e, values_of (msg e) with
  | Some t, Some vals => Some (Row (py_sub t origin) vals)
  | _, _ => None
  end.

(** The names under which a channel name ends up in a file name. *)
Definition csv_name (topic : string) : string :=
  Py.replace "/" "_" (Py.lstrip "/" topic).

(** The events of the two pandas calls. *)
Definition is_pandas (e : event) : bool :=
  match e with ReadCsv _ | ToCsv _ => true | _ => false end.

Definition is_to_csv (e : event) : bool :=
  match e with ToCsv _ => true | _ => false end.

Definition raised {A B : Type} (r : A + B) : bool :=
  match r with inl _ => true | inr _ => false end.

(** * Properties *)

(** ** Strings *)

Lemma append_assoc (a b c : string) : (a ++ b) ++ c = a ++ b ++ c.
Proof. induction a; simpl; congruence. Qed.


Lemma append_cancel_l (p x y : string) : p ++ x = p ++ y -> x = y.
Proof.
  induction p; simpl; intros H; [assumption | injection H; auto].
Qed.






Lemma index_path_truthy (p : string) (i : nat) :
  Py.truthy (index_path p i) = true.
Proof.
  unfold index_path. destruct p; reflexivity.
Qed.

(** ** The flattener *)

(** Induction over [value] that also reaches the items of a field's array. *)
Lemma value_seq_ind (P : value -> Prop) :
  (forall a, P (Leaf a)) ->
  (forall items, Forall P items -> P (Arr items)) ->
  (forall items, Forall P items -> P (PyList items)) ->
  (forall fields,
      Forall (fun fd => P (snd fd) /\ Forall P (items_of (snd fd))) fields ->
      P (Msg fields)) ->
  forall v, P v.
Proof.
  intros HLeaf HArr HList HMsg v.
  enough (H : P v /\ Forall P (items_of v)) by apply H.
  induction v using value_nested_ind; simpl.
  - split; [apply HLeaf | constructor].
  - assert (Forall P items) by (eapply Forall_impl; [|eassumption]; now intros ? []).
    split; auto.
  - assert (Forall P items) by (eapply Forall_impl; [|eassumption]; now intros ? []).
    split; auto.
  - split; [|constructor]. apply HMsg. assumption.
Qed.



























(** ** Column names and their labels *)

Section Split.
Variable sep : ascii.

Lemma split_cons (n : nat) (s : string) :
  exists h t, Py.split sep n s = h :: t.
Proof.
  revert n. induction s as [|a rest IH]; intros n; simpl.
  - eauto.
  - destruct n as [|m]; [eauto|].
    destruct (Ascii.eqb a sep); [eauto|].
    destruct (IH (S m)) as (h & t & ->). eauto.
Qed.

Lemma concat_two (c : string) (x y : string) (l : list string) :
  String.concat c (x :: y :: l) = x ++ c ++ String.concat c (y :: l).
Proof. reflexivity. Qed.

Lemma split_join (n : nat) (s : string) :
  Py.join (String sep "") (Py.split sep n s) = s.
Proof.
  unfold Py.join. revert n.
  induction s as [|a rest IH]; intros n; simpl; [reflexivity|].
  destruct n as [|m]; [reflexivity|].
  destruct (Ascii.eqb a sep) eqn:E.
  - apply Ascii.eqb_eq in E. subst a.
    destruct (split_cons m rest) as (h & t & Hs).
    rewrite Hs, concat_two, <- Hs, IH. reflexivity.
  - destruct (split_cons (S m) rest) as (h & t & Hs).
    rewrite Hs. destruct t as [|h2 t2].
    + simpl. f_equal. rewrite <- (IH (S m)), Hs. reflexivity.
    + rewrite concat_two. simpl. f_equal.
      transitivity (String.concat (String sep "") (Py.split sep (S m) rest));
        [now rewrite Hs | apply IH].
Qed.

Lemma split_length (n : nat) (s : string) :
  1 <= List.length (Py.split sep n s) <= S n.
Proof.
  revert n. induction s as [|a rest IH]; intros n; simpl; [lia|].
  destruct n as [|m]; [simpl; lia|].
  destruct (Ascii.eqb a sep).
  - specialize (IH m). simpl. lia.
  - specialize (IH (S m)).
    destruct (split_cons (S m) rest) as (h & t & Hs). rewrite Hs in *.
    simpl in *. lia.
Qed.

(** Every component but the last is free of the separator, and so is the
    last when fewer than [n] cuts were made. *)
Lemma split_free (n : nat) (s : string) (i : nat) :
  i < List.length (Py.split sep n s) ->
  S i < List.length (Py.split sep n s)
  \/ List.length (Py.split sep n s) <= n ->
  free_of (is_char sep) (nth i (Py.split sep n s) "") = true.
Proof.
  revert n i. induction s as [|a rest IH]; intros n i; simpl.
  - intros Hi _. destruct i as [|[|i]]; reflexivity.
  - destruct n as [|m]; [simpl; lia|].
    destruct (Ascii.eqb a sep) eqn:E.
    + destruct i as [|i]; [reflexivity|]. simpl. intros Hi Hc.
      apply IH; lia.
    + specialize (IH (S m)).
      destruct (split_cons (S m) rest) as (h & t & Hs). rewrite Hs in *.
      destruct i as [|i]; simpl; intros Hi Hc.
      * unfold is_char at 1. rewrite E. simpl.
        apply (IH 0); simpl in *; lia.
      * apply (IH (S i)); simpl in *; lia.
Qed.

Lemma split_whole (n : nat) (s : string) :
  free_of (is_char sep) s = true -> Py.split sep n s = [s].
Proof.
  revert n. induction s as [|a rest IH]; intros n; simpl; [reflexivity|].
  intros F. apply andb_prop in F as [Fa F].
  destruct n as [|m]; [reflexivity|].
  unfold is_char in Fa. apply negb_true_iff in Fa. rewrite Fa.
  now rewrite (IH (S m) F).
Qed.
End Split.

(** C4. The label of a column: [time] and [timestamp] have their fixed
    two-level labels; any other name is cut at its first two dots, so that
    joining the components with dots gives the name back, there are one to
    three of them, all but the last are free of dots, the last is free of
    dots too unless there are three, and a name without a dot is its own
    single component. *)
Theorem indexes_spec :
  indexes "time" = ["RosBag"; "timestamp"]
  /\ indexes "timestamp" = ["IMUDataArray"; "timestamp"]
  /\ forall col : string,
      col <> "time" -> col <> "timestamp" ->
      Py.join "." (indexes col) = col
      /\ 1 <= List.length (indexes col) <= 3
      /\ (forall i, S i < List.length (indexes col) ->
                    free_of is_dot (nth i (indexes col) "") = true)
      /\ (List.length (indexes col) < 3 ->
          Forall (fun part => free_of is_dot part = true) (indexes col))
      /\ (free_of is_dot col = true -> indexes col = [col]).
Proof.
  split; [reflexivity|]. split; [reflexivity|].
  intros col H1 H2. unfold indexes.
  apply String.eqb_neq in H1, H2. rewrite H1, H2.
  split; [apply (split_join "." 2)|].
  split; [apply (split_length "." 2)|].
  split; [|split].
  - intros i Hi. apply (split_free "." 2); [lia | now left].
  - intros Hl. apply Forall_forall. intros part Hin.
    destruct (In_nth _ _ "" Hin) as (i & Hi & <-).
    apply (split_free "." 2); [assumption | right; lia].
  - apply (split_whole "." 2).
Qed.

Lemma indexes_spec_witness :
  "a.b.c.d" <> "time" /\ "a.b.c.d" <> "timestamp"
  /\ indexes "a.b.c.d" = ["a"; "b"; "c.d"]
  /\ Py.join "." (indexes "a.b.c.d") = "a.b.c.d"
  /\ 1 <= List.length (indexes "a.b.c.d") <= 3.
Proof.
  assert (N1 : "a.b.c.d" <> "time") by discriminate.
  assert (N2 : "a.b.c.d" <> "timestamp") by discriminate.
  destruct indexes_spec as (_ & _ & H).
  destruct (H "a.b.c.d" N1 N2) as (J & L & _).
  repeat split; try assumption; try reflexivity; apply L.
Defined.

(** ** The exporter *)

Lemma bind_some {A B : Type} (m : io A) (k : A -> io B)
      (evs : list event) (b : B) :
  bind m k = (evs, Some b) ->
  exists e1 a e2, m = (e1, Some a) /\ k a = (e2, Some b) /\ evs = (e1 ++ e2)%list.
Proof.
  destruct m as [e1 [a|]]; simpl; [|discriminate].
  destruct (k a) as [e2 r] eqn:K. intros [= <- ->]. eauto 6.
Qed.

Lemma dump_loop_app (bag : string) (st : state) (a b : list entry) :
  dump_loop bag st (a ++ b)
  = bind (dump_loop bag st a) (fun st' => dump_loop bag st' b).
Proof.
  revert st. induction a as [|e a IH]; intros st; simpl.
  - destruct (dump_loop bag st b) as [evs r]. reflexivity.
  - destruct (dump_entry bag st e) as [e1 [st1|]]; simpl; [|reflexivity].
    rewrite IH.
    destruct (dump_loop bag st1 a) as [e2 [st2|]]; simpl.
    + destruct (dump_loop bag st2 b) as [e3 r]. now rewrite app_assoc.
    + reflexivity.
Qed.

Lemma dump_entry_excluded (bag : string) (st : state) (e : entry) :
  excluded (topic e) = true -> dump_entry bag st e = ([], Some st).
Proof.
  unfold dump_entry. now intros ->.
Qed.

(** What one turn of the loop does when it does not raise. *)
Lemma dump_entry_inv (bag : string) (st st' : state) (e : entry)
      (evs : list event) :
  excluded (topic e) = false ->
  dump_entry bag st e = (evs, Some st') ->
  exists t vals fd opening,
    row_time e = Some t
    /\ values_of (msg e) = Some vals
    /\ lookup (topic e) (file_map st') = Some fd
    /\ start_time st' = Some (match start_time st with Some s => s | None => t end)
    /\ msg_cnt st' = S (msg_cnt st)
    /\ evs = (opening
              ++ Print fd (Row (py_sub t (match start_time st with
                                          | Some s => s | None => t end)) vals)
              :: (if Nat.eqb (msg_cnt st mod 1000) 0
                  then [Progress (py_sub t (match start_time st with
                                            | Some s => s | None => t end))]
                  else []))%list
    /\ ((lookup (topic e) (file_map st) = Some fd
         /\ opening = []
         /\ file_map st' = file_map st
         /\ next_fd st' = next_fd st)
        \/ (lookup (topic e) (file_map st) = None
            /\ fd = next_fd st
            /\ (exists fields,
                   fields_of (msg e) = Some fields
                   /\ opening = [Open fd (csv_path bag (topic e));
                                 Print fd (Header (header_text fields))])
            /\ file_map st' = (topic e, fd) :: file_map st
            /\ next_fd st' = S fd)).
Proof.
  Local Opaque Nat.modulo.
  intros X. unfold dump_entry, ensure_file. rewrite X.
  destruct (lookup (topic e) (file_map st)) as [fd|] eqn:L;
    unfold bind, emit, lift, ret.
  - rewrite L.
    destruct (row_time e) as [t|]; [|discriminate].
    destruct (values_of (msg e)) as [vals|]; [|discriminate].
    destruct (Nat.eqb (msg_cnt st mod 1000) 0) eqn:C;
      cbn; intros H; inversion H; subst; clear H; exists t, vals, fd, []; cbn;
        rewrite ?C; repeat split; auto.
  - destruct (fields_of (msg e)) as [fields|]; [|discriminate].
    cbn. rewrite String.eqb_refl.
    destruct (row_time e) as [t|]; [|discriminate].
    destruct (values_of (msg e)) as [vals|]; [|discriminate].
    destruct (Nat.eqb (msg_cnt st mod 1000) 0) eqn:C;
      cbn; intros H; inversion H; subst; clear H;
        exists t, vals, (next_fd st),
          [Open (next_fd st) (csv_path bag (topic e));
           Print (next_fd st) (Header (header_text fields))];
        cbn; rewrite ?String.eqb_refl, ?C; repeat split; eauto 10.
  Local Transparent Nat.modulo.
Qed.

Lemma written_app (fd : nat) (a b : list event) :
  written fd (a ++ b) = (written fd a ++ written fd b)%list.
Proof.
  induction a as [|[] a IH]; simpl; auto.
  destruct (Nat.eqb fd0 fd); simpl; congruence.
Qed.

Lemma row_times_app (a b : list event) :
  row_times (a ++ b) = (row_times a ++ row_times b)%list.
Proof.
  induction a as [|ev a IH]; simpl; [reflexivity|].
  destruct ev as [| fd l | | | | | |]; simpl; try assumption.
  destruct l; simpl; congruence.
Qed.

Lemma markers_app (a b : list event) :
  markers (a ++ b) = (markers a ++ markers b)%list.
Proof.
  induction a as [|[] a IH]; simpl; congruence.
Qed.

(** *** Time stamps *)



Lemma dump_entry_rows (bag : string) (st st' : state) (e : entry)
      (evs : list event) :
  excluded (topic e) = false ->
  dump_entry bag st e = (evs, Some st') ->
  exists t,
    row_time e = Some t
    /\ start_time st' = origin_of st [t]
    /\ msg_cnt st' = S (msg_cnt st)
    /\ (forall o, origin_of st [t] = Some o ->
                  row_times evs = [py_sub t o]
                  /\ markers evs = if Nat.eqb (msg_cnt st mod 1000) 0
                                   then [py_sub t o] else []).
Proof.
  intros X E.
  destruct (dump_entry_inv _ _ _ _ _ X E)
    as (t & vals & fd & opening & Ht & _ & _ & Hs & Hc & -> & Hopen).
  exists t. repeat split; auto.
  - rewrite Hs. unfold origin_of. now destruct (start_time st).
  - assert (O : origin_of st [t]
                = Some (match start_time st with Some s => s | None => t end))
      by (unfold origin_of; now destruct (start_time st)).
    rewrite O in H. injection H as <-.
    rewrite row_times_app.
    destruct Hopen as [(_ & -> & _) | (_ & _ & (fields & _ & ->) & _)];
      destruct (Nat.eqb (msg_cnt st mod 1000) 0); reflexivity.
  - assert (O : origin_of st [t]
                = Some (match start_time st with Some s => s | None => t end))
      by (unfold origin_of; now destruct (start_time st)).
    rewrite O in H. injection H as <-.
    rewrite markers_app.
    destruct Hopen as [(_ & -> & _) | (_ & _ & (fields & _ & ->) & _)];
      destruct (Nat.eqb (msg_cnt st mod 1000) 0); reflexivity.
Qed.

Lemma dump_loop_times (bag : string) (entries : list entry) :
  forall st evs st',
    dump_loop bag st entries = (evs, Some st') ->
    exists times,
      map row_time (processed entries) = map Some times
      /\ start_time st' = origin_of st times
      /\ msg_cnt st' = msg_cnt st + List.length times
      /\ row_times evs = match origin_of st times with
                         | Some o => map (fun t => py_sub t o) times
                         | None => []
                         end.
Proof.
  induction entries as [|e rest IH]; intros st evs st' E.
  - injection E as <- <-. exists []. unfold origin_of. simpl.
    destruct (start_time st); repeat split; auto.
  - simpl in E. apply bind_some in E as (e1 & st1 & e2 & E1 & E2 & ->).
    destruct (IH _ _ _ E2) as (times & Ht & Hs & Hc & Hr).
    unfold processed in *. simpl.
    destruct (excluded (topic e)) eqn:X; simpl.
    + rewrite (dump_entry_excluded _ _ _ X) in E1. injection E1 as <- <-.
      exists times. auto.
    + destruct (dump_entry_rows _ _ _ _ _ X E1) as (t & Rt & S1 & C1 & Rows).
      exists (t :: times).
      assert (O1 : origin_of st1 times = origin_of st (t :: times)).
      { unfold origin_of in *. rewrite S1. simpl. now destruct (start_time st). }
      assert (O2 : origin_of st [t] = origin_of st (t :: times))
        by reflexivity.
      rewrite Rt, Ht. split; [reflexivity|]. split; [congruence|].
      split; [simpl; lia|].
      rewrite row_times_app, Hr, O1.
      destruct (origin_of st (t :: times)) as [o|] eqn:O.
      * destruct (Rows o O2) as [-> _]. reflexivity.
      * unfold origin_of in O. simpl in O. destruct (start_time st); discriminate.
Qed.



(** *** Progress markers *)

Lemma firstn_middle {A : Type} (a : list A) (x : A) (b : list A) :
  firstn (List.length a) (a ++ x :: b) = a
  /\ nth_error (a ++ x :: b) (List.length a) = Some x.
Proof.
  induction a as [|y a [IH1 IH2]]; simpl; auto.
  split; [now rewrite IH1 | assumption].
Qed.

(** C7, as the code has it.  The turn of the loop on an entry prints a
    marker exactly when the number of entries processed before it, over all
    channels and without the skipped ones, is a multiple of 1000: so on the
    first one, the 1001st, the 2001st; the marker carries the time the row
    stores. *)
Theorem progress_marker_rule
        (bag : string) (before : list entry) (e : entry) (after : list entry)
        (evs0 evs : list event) (st st' : state) :
  dump_bag bag before = (evs0, Some st) ->
  excluded (topic e) = false ->
  dump_entry bag st e = (evs, Some st') ->
  (exists rel,
      row_times evs = [rel]
      /\ markers evs
         = if Nat.eqb (List.length (processed before) mod 1000) 0
           then [rel] else [])
  /\ marker_at bag (before ++ e :: after) (List.length before)
     = Nat.eqb (List.length (processed before) mod 1000) 0.
Proof.
  intros E0 X E.
  destruct (dump_loop_times _ _ _ _ _ E0) as (times & Ht & _ & Hc & _).
  assert (L : List.length (processed before) = msg_cnt st).
  { rewrite Hc. simpl.
    rewrite <- (length_map row_time), Ht, length_map. reflexivity. }
  destruct (dump_entry_rows _ _ _ _ _ X E) as (t & Rt & S1 & _ & Rows).
  destruct (origin_of st [t]) as [o|] eqn:O.
  - destruct (Rows o eq_refl) as [R M]. rewrite L. split.
    + exists (py_sub t o). auto.
    + unfold marker_at. destruct (firstn_middle before e after) as [-> ->].
      rewrite E0, E. cbn [fst]. rewrite M.
      now destruct (Nat.eqb (msg_cnt st mod 1000) 0).
  - unfold origin_of in O. simpl in O. destruct (start_time st); discriminate.
Qed.

Lemma progress_marker_rule_witness :
  marker_at "bag" ([] ++ Samples.scenario_C) 0 = true
  /\ marker_at "bag" Samples.scenario_C 1 = false.
Proof.
  split.
  - apply (proj2 (progress_marker_rule "bag" [] (hd (Build_entry "" (Leaf (SInt 0)) 0)
                                         Samples.scenario_C)
                    (tl Samples.scenario_C) [] _ initial _
                    eq_refl eq_refl eq_refl)).
  - apply (proj2 (progress_marker_rule "bag" [hd (Build_entry "" (Leaf (SInt 0)) 0)
                                          Samples.scenario_C]
                    (hd (Build_entry "" (Leaf (SInt 0)) 0) (tl Samples.scenario_C))
                    [] _ _ _ _
                    eq_refl eq_refl eq_refl)).
Defined.

(** C7 as stated fails on the first entry of a run: a marker is printed for
    it, and it is not a positive multiple of 1000 whether entries are counted
    from 0 or from 1. *)
Lemma progress_marker_counterexample :
  ~ (forall n, marker_at "bag" Samples.scenario_C n = true
               <-> 0 < n /\ n mod 1000 = 0)
  /\ ~ (forall n, marker_at "bag" Samples.scenario_C n = true
                  <-> 0 < S n /\ S n mod 1000 = 0).
Proof.
  assert (M : marker_at "bag" Samples.scenario_C 0 = true) by reflexivity.
  split; intros H; apply (H 0) in M; destruct M as [Hp Hm].
  - lia.
  - discriminate Hm.
Qed.

(** *** One header per channel *)

Lemma lookup_cons (k name : string) (fd : nat) (m : list (string * nat)) :
  lookup name ((k, fd) :: m)
  = if String.eqb k name then Some fd else lookup name m.
Proof. reflexivity. Qed.

(** What one turn of the loop prints, file by file. *)
Lemma dump_entry_files (bag : string) (st st' : state) (e : entry)
      (evs : list event) :
  consistent st ->
  excluded (topic e) = false ->
  dump_entry bag st e = (evs, Some st') ->
  consistent st'
  /\ next_fd st <= next_fd st'
  /\ (forall name fd, lookup name (file_map st) = Some fd ->
                      lookup name (file_map st') = Some fd)
  /\ exists fd_e row,
      lookup (topic e) (file_map st') = Some fd_e
      /\ fd_e < next_fd st'
      /\ is_row row = true
      /\ (forall fd, fd <> fd_e -> written fd evs = [])
      /\ ((lookup (topic e) (file_map st) = Some fd_e
           /\ written fd_e evs = [row]
           /\ file_map st' = file_map st)
          \/ (lookup (topic e) (file_map st) = None
              /\ fd_e = next_fd st
              /\ (exists fields,
                     fields_of (msg e) = Some fields
                     /\ written fd_e evs = [Header (header_text fields); row])
              /\ file_map st' = (topic e, fd_e) :: file_map st)).
Proof.
  Local Opaque Nat.modulo.
  intros [C1 C2] X E.
  destruct (dump_entry_inv _ _ _ _ _ X E)
    as (t & vals & fd & opening & _ & _ & L' & _ & _ & -> & Hopen).
  destruct Hopen as [(L & -> & FM & NF) | (L & -> & (fields & F & ->) & FM & NF)].
  - split; [|split; [|split]].
    + unfold consistent. rewrite FM, NF. auto.
    + lia.
    + now rewrite FM.
    + exists fd, (Row (py_sub t match start_time st with
                               | Some s => s | None => t end) vals).
      destruct (C1 _ _ L) as [Hlt _].
      split; [assumption|]. split; [lia|]. split; [reflexivity|]. split.
      * intros fd0 N. simpl.
        destruct (Nat.eqb fd fd0) eqn:Q;
          [apply Nat.eqb_eq in Q; congruence|].
        now destruct (Nat.eqb (msg_cnt st mod 1000) 0).
      * left. split; [assumption|]. split; [|assumption].
        simpl. rewrite Nat.eqb_refl.
        now destruct (Nat.eqb (msg_cnt st mod 1000) 0).
  - assert (Fresh : forall name fd, lookup name (file_map st) = Some fd ->
                                    fd <> next_fd st).
    { intros name fd H. destruct (C1 _ _ H). lia. }
    split; [|split; [|split]].
    + unfold consistent. rewrite FM, NF. split.
      * intros name fd. rewrite lookup_cons.
        destruct (String.eqb (topic e) name) eqn:Q.
        -- apply String.eqb_eq in Q. subst name. intros [= <-]. auto.
        -- intros H. destruct (C1 _ _ H). split; [lia | assumption].
      * intros n1 n2 fd. rewrite !lookup_cons.
        destruct (String.eqb (topic e) n1) eqn:Q1;
          destruct (String.eqb (topic e) n2) eqn:Q2.
        -- apply String.eqb_eq in Q1, Q2. congruence.
        -- intros [= <-] H. now apply Fresh in H.
        -- intros H [= <-]. now apply Fresh in H.
        -- apply C2.
    + lia.
    + intros name fd H. rewrite FM, lookup_cons.
      destruct (String.eqb (topic e) name) eqn:Q; [|assumption].
      apply String.eqb_eq in Q. congruence.
    + exists (next_fd st), (Row (py_sub t match start_time st with
                                         | Some s => s | None => t end) vals).
      split; [assumption|]. split; [lia|]. split; [reflexivity|]. split.
      * intros fd0 N. simpl.
        destruct (Nat.eqb (next_fd st) fd0) eqn:Q;
          [apply Nat.eqb_eq in Q; congruence|].
        now destruct (Nat.eqb (msg_cnt st mod 1000) 0).
      * right. split; [assumption|]. split; [reflexivity|].
        split; [|assumption].
        exists fields. split; [assumption|].
        simpl. rewrite Nat.eqb_refl.
        now destruct (Nat.eqb (msg_cnt st mod 1000) 0).
  Local Transparent Nat.modulo.
Qed.

Lemma on_channel_cons (name : string) (e : entry) (rest : list entry) :
  on_channel name (e :: rest)
  = if String.eqb (topic e) name then e :: on_channel name rest
    else on_channel name rest.
Proof. reflexivity. Qed.

(** The files of a run from any consistent state: a channel that had its
    file gets rows only; a channel that gets its file during the run has the
    header of its first entry, then rows only. *)
Lemma dump_loop_files (bag : string) (entries : list entry) :
  forall st evs st',
    consistent st ->
    dump_loop bag st entries = (evs, Some st') ->
    consistent st'
    /\ next_fd st <= next_fd st'
    /\ (forall name fd, lookup name (file_map st) = Some fd ->
                        lookup name (file_map st') = Some fd)
    /\ (forall fd, next_fd st' <= fd -> written fd evs = [])
    /\ (forall e, In e entries -> excluded (topic e) = false ->
                  exists fd, lookup (topic e) (file_map st') = Some fd)
    /\ forall name fd,
        lookup name (file_map st') = Some fd ->
        exists rows,
          Forall (fun l => is_row l = true) rows
          /\ List.length rows = List.length (on_channel name entries)
          /\ ((lookup name (file_map st) = Some fd /\ written fd evs = rows)
              \/ (lookup name (file_map st) = None
                  /\ next_fd st <= fd
                  /\ exists first rest fields,
                      on_channel name entries = first :: rest
                      /\ fields_of (msg first) = Some fields
                      /\ written fd evs = Header (header_text fields) :: rows)).
Proof.
  induction entries as [|e rest IH]; intros st evs st' C E.
  - injection E as <- <-.
    split; [assumption|]. split; [lia|]. split; [auto|]. split; [auto|].
    split; [intros ? []|].
    intros name fd L. exists []. split; [constructor|]. split; [reflexivity|].
    left. auto.
  - simpl in E. apply bind_some in E as (e1 & st1 & e2 & E1 & E2 & ->).
    destruct (excluded (topic e)) eqn:X.
    + rewrite (dump_entry_excluded _ _ _ X) in E1. injection E1 as <- <-.
      destruct (IH _ _ _ C E2) as (C' & N' & M' & W' & I' & F').
      split; [assumption|]. split; [assumption|]. split; [assumption|].
      split; [assumption|]. split.
      * intros e0 [<-|H] X0; [congruence | auto].
      * intros name fd L. rewrite on_channel_cons.
        destruct (String.eqb (topic e) name) eqn:Q; [|auto].
        apply String.eqb_eq in Q. subst name.
        destruct C' as [C1' _]. destruct (C1' _ _ L). congruence.
    + destruct (dump_entry_files _ _ _ _ _ C X E1)
        as (C1 & N1 & M1 & fd_e & row & Le & Lt & Hrow & Wother & Cases).
      destruct (IH _ _ _ C1 E2) as (C' & N' & M' & W' & I' & F').
      split; [assumption|]. split; [lia|]. split; [auto|]. split.
      { intros fd Hfd. rewrite written_app, (W' fd Hfd), (Wother fd); [reflexivity|].
        lia. }
      split.
      { intros e0 [<-|H] X0; [eauto | auto]. }
      intros name fd L. rewrite written_app, on_channel_cons.
      destruct (F' name fd L) as (rows2 & R2 & Len2 & [[L1 W2] | (L1 & Nx & first & rest' & fields & O & Fd & W2)]).
      * (* the channel has its file after this turn *)
        destruct (String.eqb (topic e) name) eqn:Q.
        -- apply String.eqb_eq in Q. subst name.
           assert (fd = fd_e) by congruence. subst fd.
           exists (row :: rows2). split; [constructor; assumption|].
           split; [simpl; lia|].
           destruct Cases as [(L0 & W1 & _) | (L0 & Hn & (fields & Fd & W1) & _)].
           ++ left. split; [assumption|]. now rewrite W1, W2.
           ++ right. split; [assumption|]. split; [lia|].
              exists e, (on_channel (topic e) rest), fields.
              split; [reflexivity|]. split; [assumption|]. now rewrite W1, W2.
        -- apply String.eqb_neq in Q.
           assert (fd <> fd_e).
           { intros ->. destruct C1 as [_ Inj]. apply Q. now apply (Inj _ _ fd_e). }
           exists rows2. split; [assumption|]. split; [assumption|].
           left. rewrite (Wother fd) by assumption. split; [|now rewrite W2].
           destruct Cases as [(_ & _ & FM) | (_ & _ & _ & FM)].
           ++ now rewrite <- FM.
           ++ rewrite FM, lookup_cons in L1.
              apply String.eqb_neq in Q. now rewrite Q in L1.
      * (* the channel gets its file later *)
        assert (Q : String.eqb (topic e) name = false).
        { apply String.eqb_neq. intros <-. congruence. }
        rewrite Q. exists rows2. split; [assumption|]. split; [assumption|].
        right. split.
        { destruct (lookup name (file_map st)) as [fd0|] eqn:L0; [|reflexivity].
          apply M1 in L0. congruence. }
        split; [lia|].
        exists first, rest', fields. split; [assumption|]. split; [assumption|].
        rewrite (Wother fd) by lia. now rewrite W2.
Qed.

Lemma filter_not_header (l : list string) :
  Forall (fun f => Py.startswith f "header." = false) (filter not_header l).
Proof.
  apply Forall_forall. intros f H. apply filter_In in H as [_ H].
  unfold not_header in H. now apply negb_true_iff in H.
Qed.

(** C2. In a run that returns, every channel that is not skipped has a file,
    and the file of a channel starts with one header line, [time] and then
    the flattened paths of the channel's first entry without those that start
    with [header.], in flattening order, joined with commas; every line after
    it is a row, one per entry of the channel: the entries that follow the
    first add no header and change none. *)
Theorem header_from_first_record
        (bag : string) (entries : list entry) (evs : list event) (st' : state) :
  dump_bag bag entries = (evs, Some st') ->
  (forall e, In e entries -> excluded (topic e) = false ->
             exists fd, lookup (topic e) (file_map st') = Some fd)
  /\ forall name fd,
      lookup name (file_map st') = Some fd ->
      exists first rest flat schema rows,
        on_channel name entries = first :: rest
        /\ _gen_msg_values (msg first) "" = Some flat
        /\ schema = filter not_header (paths flat)
        /\ Forall (fun f => Py.startswith f "header." = false) schema
        /\ written fd evs = Header ("time," ++ Py.join "," schema) :: rows
        /\ Forall (fun l => is_row l = true) rows
        /\ List.length rows = List.length (first :: rest).
Proof.
  intros E.
  assert (C : consistent initial).
  { split; simpl; intros; discriminate. }
  destruct (dump_loop_files _ _ _ _ _ C E) as (_ & _ & _ & _ & I & F).
  split; [assumption|].
  intros name fd L.
  destruct (F name fd L)
    as (rows & R & Len & [[L0 _] | (_ & _ & first & rest & fields & O & Fd & W)]).
  - discriminate.
  - unfold fields_of in Fd.
    destruct (_gen_msg_values (msg first) "") as [flat|] eqn:G; [|discriminate].
    injection Fd as <-.
    exists first, rest, flat, (filter not_header (paths flat)), rows.
    split; [assumption|]. split; [assumption|]. split; [reflexivity|].
    split; [apply filter_not_header|]. split; [exact W|].
    split; [assumption|]. now rewrite <- O.
Qed.

Lemma header_from_first_record_witness :
  exists evs st',
    dump_bag "bag" Samples.scenario_C = (evs, Some st')
    /\ lookup "/imu" (file_map st') = Some 0
    /\ exists first rest flat schema rows,
        on_channel "/imu" Samples.scenario_C = first :: rest
        /\ _gen_msg_values (msg first) "" = Some flat
        /\ schema = filter not_header (paths flat)
        /\ Forall (fun f => Py.startswith f "header." = false) schema
        /\ written 0 evs = Header ("time," ++ Py.join "," schema) :: rows
        /\ Forall (fun l => is_row l = true) rows
        /\ List.length rows = List.length (first :: rest).
Proof.
  eexists _, _. split; [reflexivity|]. split; [reflexivity|].
  apply (proj2 (header_from_first_record "bag" Samples.scenario_C _ _ eq_refl)
               "/imu" 0 eq_refl).
Defined.

(** ** The regrouper *)

Section RegrouperFacts.
Variable disk : Type.
Variable cell : Type.
Variable read_csv : disk -> string -> string + Frame string cell.
Variable to_csv :
  disk -> string -> Frame (list string) cell -> disk * option string.

Lemma tried_app (a b : list event) :
  tried (a ++ b) = (tried a ++ tried b)%list.
Proof. apply flat_map_app. Qed.

Lemma reports_app (a b : list event) :
  reports (a ++ b) = (reports a ++ reports b)%list.
Proof. apply flat_map_app. Qed.

Lemma guarded_once (d : disk) (file : string) :
  tried (fst (guarded disk cell read_csv to_csv d file)) = [file]
  /\ List.length (reports (fst (guarded disk cell read_csv to_csv d file))) = 1.
Proof.
  unfold guarded, regroup_file.
  destruct (read_csv d file) as [e|df]; [split; reflexivity|].
  destruct (to_csv d file (relabel cell df)) as [d' [e|]]; split; reflexivity.
Qed.

Lemma regroup_all_every_file (flist : list string) :
  forall d,
    tried (fst (regroup_all disk cell read_csv to_csv d flist)) = flist
    /\ List.length (reports (fst (regroup_all disk cell read_csv to_csv d flist))) = List.length flist.
Proof.
    induction flist as [|file rest IH]; intros d; simpl; [auto|].
  destruct (guarded_once d file) as [T R].
  destruct (guarded disk cell read_csv to_csv d file) as [evs d'].
  destruct (IH d') as [T' R'].
  destruct (regroup_all disk cell read_csv to_csv d' rest) as [evs' d''].
  simpl in *. rewrite tried_app, reports_app, length_app, T, T', R, R'.
  auto.
Qed.
End RegrouperFacts.


(** *** Channel names and file names *)

(** C10. The file name of a channel is not injective in the channel: [/a/b]
    and [/a_b] are distinct, neither is skipped, and both get the same path;
    in a run where the two take turns, two file objects are opened on that
    path and what is printed to it is the header and rows of one channel
    interleaved with those of the other. *)
Theorem csv_path_not_injective (bag : string) :
  "/a/b" <> "/a_b"
  /\ excluded "/a/b" = false
  /\ excluded "/a_b" = false
  /\ csv_path bag "/a/b" = csv_path bag "/a_b"
  /\ csv_path bag "/a/b" = bag ++ "/a_b.csv"
  /\ opens (fst (dump_bag bag Samples.clash))
     = [(0, bag ++ "/a_b.csv"); (1, bag ++ "/a_b.csv")]
  /\ sent_to (bag ++ "/a_b.csv") [] (fst (dump_bag bag Samples.clash))
     = [Header "time,x,y.a,y.b";
        Row (PInt 0) [Leaf (SInt 1); Leaf (SInt 2); Leaf (SInt 3)];
        Header "time,items[0].v,items[1].v";
        Row (PInt 5) [Leaf (SInt 1); Leaf (SInt 2)];
        Row (PInt 9) [Leaf (SInt 1); Leaf (SInt 2); Leaf (SInt 3)]].
Proof.
  split; [discriminate|]. split; [reflexivity|]. split; [reflexivity|].
  split; [reflexivity|]. split; [reflexivity|]. split; [reflexivity|].
  cbn. rewrite !String.eqb_refl. reflexivity.
Qed.

(** *** Files left open *)

Lemma dump_entry_no_close (bag : string) (st : state) (e : entry) :
  Forall (fun ev => is_close ev = false) (fst (dump_entry bag st e)).
Proof.
  Local Opaque Nat.modulo.
  unfold dump_entry, ensure_file, bind, emit, lift, ret.
  destruct (excluded (topic e)); [constructor|].
  destruct (lookup (topic e) (file_map st)) as [fd|] eqn:L.
  - rewrite L.
    destruct (row_time e); [|constructor].
    destruct (values_of (msg e)); [|constructor].
    destruct (Nat.eqb (msg_cnt st mod 1000) 0); cbn; repeat constructor.
  - destruct (fields_of (msg e)); [|cbn; repeat constructor].
    cbn. rewrite String.eqb_refl.
    destruct (row_time e); [|cbn; repeat constructor].
    destruct (values_of (msg e)); [|cbn; repeat constructor].
    destruct (Nat.eqb (msg_cnt st mod 1000) 0); cbn; repeat constructor.
  Local Transparent Nat.modulo.
Qed.

Lemma dump_loop_no_close (bag : string) (entries : list entry) :
  forall st, Forall (fun ev => is_close ev = false)
                    (fst (dump_loop bag st entries)).
Proof.
  induction entries as [|e rest IH]; intros st; simpl; [constructor|].
  pose proof (dump_entry_no_close bag st e) as H.
  destruct (dump_entry bag st e) as [e1 [st1|]]; simpl in *; [|assumption].
  specialize (IH st1).
  destruct (dump_loop bag st1 rest) as [e2 r]. simpl in *.
  apply Forall_app. auto.
Qed.

Lemma unclosed_keeps (evs : list event) :
  Forall (fun ev => is_close ev = false) evs ->
  forall opened o,
    In o opened \/ In o (opens evs) -> In o (unclosed opened evs).
Proof.
  induction 1 as [|ev evs Hev _ IH]; intros opened o; simpl.
  - now intros [H|[]].
  - destruct ev; try discriminate; simpl;
      try (intros H; apply IH; exact H).
    intros [H|[<-|H]]; apply IH; simpl; auto.
Qed.

(** C6, as the code has it.  [dump_bag] closes nothing: whether it returns
    or raises, no [Close] is among its events and every file object it
    opened is left without one; when it returns, the script goes straight on
    to the regrouper, which reads every file the directory listing gives. *)
Theorem exporter_leaves_files_open (bag : string) (entries : list entry) :
  Forall (fun ev => is_close ev = false) (fst (dump_bag bag entries))
  /\ (forall fd path,
         In (Open fd path) (fst (dump_bag bag entries)) ->
         In (fd, path) (unclosed [] (fst (dump_bag bag entries))))
  /\ (forall (disk cell : Type)
             (read_csv : disk -> string -> string + Frame string cell)
             (to_csv : disk -> string -> Frame (list string) cell
                       -> disk * option string)
             (glob_csv : disk -> string -> list string)
             (settle : disk -> list event -> disk)
             (prog : string) (d : disk) (evs : list event) (st' : state),
         dump_bag bag entries = (evs, Some st') ->
         exists evs',
           fst (fst (main disk cell read_csv to_csv glob_csv settle
                          [prog; bag] d entries)) = (evs ++ evs')%list
           /\ tried evs' = glob_csv (settle d evs) bag).
Proof.
  pose proof (dump_loop_no_close bag entries initial) as N.
  split; [exact N|]. split.
  - intros fd path H. apply unclosed_keeps; [exact N|]. right.
    unfold opens. apply in_flat_map. exists (Open fd path). simpl. auto.
  - intros disk cell read_csv to_csv glob_csv settle prog d evs st' E.
    unfold main, add_multi_indices. rewrite E.
    destruct (regroup_all_every_file disk cell read_csv to_csv
                (glob_csv (settle d evs) bag) (settle d evs)) as [T _].
    destruct (regroup_all disk cell read_csv to_csv (settle d evs)
                (glob_csv (settle d evs) bag)) as [evs' d'].
    exists evs'. split; [reflexivity | exact T].
Qed.

Lemma exporter_leaves_files_open_witness :
  In (Open 0 "bag/imu.csv") (fst (dump_bag "bag" Samples.scenario_C))
  /\ In (0, "bag/imu.csv")
        (unclosed [] (fst (dump_bag "bag" Samples.scenario_C))).
Proof.
  assert (H : In (Open 0 "bag/imu.csv") (fst (dump_bag "bag" Samples.scenario_C)))
    by (left; reflexivity).
  split; [exact H|].
  exact (proj1 (proj2 (exporter_leaves_files_open "bag" Samples.scenario_C))
               _ _ H).
Defined.

(** C6 as stated fails: in the script run on scenario C the regrouper reads
    [bag/imu.csv] while the file object the exporter opened on it has not
    been closed. *)
Lemma files_closed_before_regrouping_counterexample :
  closed_before_read []
    (fst (fst (Pandas.run_main "nan" (fun _ _ => []) ["rosbag2csv.py"; "bag"]
                               [] Samples.scenario_C))) = false
  /\ unclosed [] (fst (dump_bag "bag" Samples.scenario_C))
     = [(0, "bag/imu.csv")]
  /\ Pandas.glob_csv
       (Pandas.settle (fun _ _ => []) []
                      (fst (dump_bag "bag" Samples.scenario_C))) "bag"
     = ["bag/imu.csv"].
Proof.
  repeat split; reflexivity.
Qed.

(** C8. Whatever [read_csv] and [to_csv] do on each file, the pass tries
    every file of the list, in order, and prints one report per file; a file
    on which either call raises gets the report [Error: ...] and the pass
    goes on from the directory that call left. *)
Theorem regrouping_survives_failures
        (disk cell : Type)
        (read_csv : disk -> string -> string + Frame string cell)
        (to_csv : disk -> string -> Frame (list string) cell
                  -> disk * option string)
        (d : disk) (flist : list string) :
  tried (fst (regroup_all disk cell read_csv to_csv d flist)) = flist
  /\ List.length (reports (fst (regroup_all disk cell read_csv to_csv d flist)))
     = List.length flist
  /\ (forall d0 file e,
         read_csv d0 file = inl e ->
         guarded disk cell read_csv to_csv d0 file
         = ([ReadCsv file; Say ("Error: " ++ e)], d0))
  /\ (forall d0 file df d1 e,
         read_csv d0 file = inr df ->
         to_csv d0 file (relabel cell df) = (d1, Some e) ->
         guarded disk cell read_csv to_csv d0 file
         = ([ReadCsv file; ToCsv file; Say ("Error: " ++ e)], d1))
  /\ (forall d0 file rest,
         regroup_all disk cell read_csv to_csv d0 (file :: rest)
         = ((fst (guarded disk cell read_csv to_csv d0 file)
             ++ fst (regroup_all disk cell read_csv to_csv
                       (snd (guarded disk cell read_csv to_csv d0 file)) rest))%list,
            snd (regroup_all disk cell read_csv to_csv
                   (snd (guarded disk cell read_csv to_csv d0 file)) rest))).
Proof.
  destruct (regroup_all_every_file disk cell read_csv to_csv flist d) as [T R].
  split; [exact T|]. split; [exact R|]. split; [|split].
  - intros d0 file e H. unfold guarded, regroup_file. now rewrite H.
  - intros d0 file df d1 e H1 H2. unfold guarded, regroup_file.
    now rewrite H1, H2.
  - intros d0 file rest. simpl.
    destruct (guarded disk cell read_csv to_csv d0 file) as [evs d'].
    simpl. now destruct (regroup_all disk cell read_csv to_csv d' rest).
Qed.

Lemma regrouping_survives_failures_witness :
  Pandas.read_csv Samples.old_dir "bag/old.csv"
  = inl "No columns to parse from file"
  /\ reports (fst (Pandas.run_regroup_all "nan" Samples.old_dir
                     ["bag/old.csv"; "bag/imu.csv"]))
     = ["Error: No columns to parse from file";
        "Multi-Indexing done for bag/imu.csv"]
  /\ Pandas.run_guarded "nan" Samples.old_dir "bag/old.csv"
     = ([ReadCsv "bag/old.csv"; Say "Error: No columns to parse from file"],
        Samples.old_dir).
Proof.
  split; [reflexivity|]. split; [reflexivity|].
  exact (proj1 (proj2 (proj2
           (regrouping_survives_failures
              Pandas.disk string Pandas.read_csv (Pandas.to_csv "nan")
              [] [])))
           Samples.old_dir
           "bag/old.csv" "No columns to parse from file" eq_refl).
Defined.




(** C5. The pass is not idempotent.  For the file the exporter writes for
    the channel [/clock] of the sample run, with header [time,timestamp.sec],
    the first pass computes the labels [(RosBag, timestamp)] and
    [(timestamp, sec)]; run again on the file it wrote, the pass takes the
    first header line for flat names and computes [(RosBag)] and
    [(IMUDataArray, timestamp)], takes the second header line for a data row,
    and writes a different file. *)
Theorem regrouping_not_idempotent
        (na_rep : string) (str_row : pynum -> list value -> list string) :
  exists (entries : list entry) (file : string),
    let evs := fst (dump_bag "bag" entries) in
    let d0 := Pandas.settle str_row [] evs in
    let d1 := snd (Pandas.run_guarded na_rep d0 file) in
    let d2 := snd (Pandas.run_guarded na_rep d1 file) in
    opens evs = [(0, file)]
    /\ written 0 evs = [Header "time,timestamp.sec";
                        Row (PFloat 0) [Leaf (SInt 3)]]
    /\ Pandas.labels_of_pass d0 file
       = Some [["RosBag"; "timestamp"]; ["timestamp"; "sec"]]
    /\ Pandas.labels_of_pass d1 file
       = Some [["RosBag"]; ["IMUDataArray"; "timestamp"]]
    /\ Pandas.labels_of_pass d1 file <> Pandas.labels_of_pass d0 file
    /\ option_map body (Pandas.frame_of_pass d1 file)
       = option_map (fun b => ["timestamp"; "sec"] :: b)
                    (option_map body (Pandas.frame_of_pass d0 file))
    /\ d2 <> d1.
Proof.
  exists Samples.timed_run, "bag/clock.csv".
  cbv zeta.
  split; [reflexivity|]. split; [reflexivity|]. split; [reflexivity|].
  split; [reflexivity|]. split; [discriminate|]. split; [reflexivity|].
  intros H. vm_compute in H. discriminate H.
Qed.

(** ** More on the flattener *)

Lemma truthy_app_r (p a : string) :
  Py.truthy a = true -> Py.truthy (p ++ a) = true.
Proof. destruct p; simpl; auto. Qed.

Lemma index_path_shift (p a : string) (i : nat) :
  index_path (p ++ a) i = p ++ index_path a i.
Proof. unfold index_path. now rewrite append_assoc. Qed.

Lemma full_field_name_shift (p a f : string) :
  Py.truthy a = true ->
  full_field_name (p ++ a) f = p ++ full_field_name a f.
Proof.
  intros T. unfold full_field_name.
  rewrite T, (truthy_app_r p a T). now rewrite append_assoc.
Qed.

Lemma chain_shift (p : string) (a b : pairs) :
  chain (option_map (map (shift p)) a) (option_map (map (shift p)) b)
  = option_map (map (shift p)) (chain a b).
Proof.
  destruct a, b; simpl; auto. now rewrite map_app.
Qed.

Lemma enum_leaves_shift (p a : string) (items : list value) (i : nat) :
  enum_leaves (p ++ a) i items = map (shift p) (enum_leaves a i items).
Proof.
  revert i. induction items as [|v items IH]; intros i; simpl; [reflexivity|].
  now rewrite IH, index_path_shift.
Qed.

Lemma enum_shift (items : list value) :
  Forall (fun v => forall p a, Py.truthy a = true ->
                               _gen_msg_values v (p ++ a)
                               = option_map (map (shift p)) (_gen_msg_values v a))
         items ->
  forall p a i,
    enum_from _gen_msg_values (p ++ a) i items
    = option_map (map (shift p)) (enum_from _gen_msg_values a i items).
Proof.
  induction 1 as [|v items Hv _ IH]; intros p a i; simpl; [reflexivity|].
  rewrite index_path_shift, Hv by apply index_path_truthy.
  now rewrite IH, chain_shift.
Qed.

Lemma flatten_shift (v : value) :
  forall p a, Py.truthy a = true ->
              _gen_msg_values v (p ++ a)
              = option_map (map (shift p)) (_gen_msg_values v a).
Proof.
  induction v using value_seq_ind; intros p q T; simpl.
  - reflexivity.
  - reflexivity.
  - now apply enum_shift.
  - induction H as [|[[f t] x] fields [Hx Hitems] _ IH]; [reflexivity|].
    cbn [each_field]. rewrite IH, <- chain_shift. f_equal.
    cbn [one_field snd] in *. rewrite (full_field_name_shift p q f T).
    destruct (Py.startswith t "sequence<").
    + destruct x as [[| | |s]| | |]; simpl in *; try reflexivity.
      * now rewrite enum_leaves_shift.
      * now apply enum_shift.
      * now apply enum_shift.
    + apply Hx. unfold full_field_name. rewrite T. now apply truthy_app_r.
Qed.

(** X1. Under a prefix that is not empty the flattener is relative: the
    pairs under [p ++ a] are the pairs under [a] with [p] put in front of
    every path, in the same order and with the same values, and it raises
    under the one exactly when it raises under the other. *)
Theorem flatten_is_relative (v : value) (p a : string) :
  Py.truthy a = true ->
  _gen_msg_values v (p ++ a) = option_map (map (shift p)) (_gen_msg_values v a)
  /\ option_map (map snd) (_gen_msg_values v (p ++ a))
     = option_map (map snd) (_gen_msg_values v a).
Proof.
  intros T. rewrite (flatten_shift v p a T). split; [reflexivity|].
  destruct (_gen_msg_values v a) as [l|]; simpl; [|reflexivity].
  f_equal. rewrite map_map. reflexivity.
Qed.

Lemma flatten_is_relative_witness :
  Py.truthy "y" = true
  /\ _gen_msg_values Samples.scenario_B ("x." ++ "y")
     = option_map (map (shift "x.")) (_gen_msg_values Samples.scenario_B "y").
Proof.
  split; [reflexivity|].
  exact (proj1 (flatten_is_relative Samples.scenario_B "x." "y" eq_refl)).
Defined.

Lemma is_some_chain (a b : pairs) :
  is_some (chain a b) = is_some a && is_some b.
Proof. destruct a, b; reflexivity. Qed.

Lemma enum_enumerable (items : list value) :
  Forall (fun v => forall p, is_some (_gen_msg_values v p) = enumerable v) items ->
  forall p i, is_some (enum_from _gen_msg_values p i items)
              = forallb enumerable items.
Proof.
  induction 1 as [|v items Hv _ IH]; intros p i; simpl; [reflexivity|].
  now rewrite is_some_chain, Hv, IH.
Qed.

(** X2. The flattener raises exactly when, on its way, a field declared
    [sequence<...>] holds something that cannot be enumerated (a number, a
    boolean, a message); the prefix plays no part. *)
Theorem flatten_raises_iff (v : value) (prefix : string) :
  is_some (_gen_msg_values v prefix) = enumerable v.
Proof.
  revert prefix.
  induction v using value_seq_ind; intros p; simpl; try reflexivity.
  - now apply enum_enumerable.
  - induction H as [|[[f t] x] fields [Hx Hitems] _ IH]; [reflexivity|].
    cbn [each_field forallb]. rewrite is_some_chain, IH. f_equal.
    cbn [one_field snd] in *.
    destruct (Py.startswith t "sequence<"); [|apply Hx].
    destruct x as [[| | |s]| | |]; simpl in *; try reflexivity;
      now apply enum_enumerable.
Qed.

(** ** More on the exporter *)

Lemma filter_map_fst (f : string -> bool) (l : list (string * value)) :
  filter f (map fst l) = map fst (filter (fun p => f (fst p)) l).
Proof.
  induction l as [|x l IH]; simpl; [reflexivity|].
  destruct (f (fst x)); simpl; now rewrite IH.
Qed.

(** X3. The header fields and the row values of one message are the two
    sides of the same pairs, those whose path does not start with [header.]:
    the i-th value of the row is the value at the i-th path of the header,
    the two have the same length, and the one is computed exactly when the
    other is. *)
Theorem fields_and_values_align (m : value) :
  match _gen_msg_values m "" with
  | Some flat =>
      fields_of m = Some (map fst (kept flat))
      /\ values_of m = Some (map snd (kept flat))
      /\ option_map (@List.length string) (fields_of m)
         = option_map (@List.length value) (values_of m)
  | None => fields_of m = None /\ values_of m = None
  end.
Proof.
  unfold fields_of, values_of, kept, paths.
  destruct (_gen_msg_values m "") as [flat|]; simpl; [|auto].
  rewrite filter_map_fst. repeat split. now rewrite !length_map.
Qed.

Lemma split_zero (sep : ascii) (s : string) : Py.split sep 0 s = [s].
Proof. destruct s; reflexivity. Qed.

(** Cutting at the first separator. *)
Lemma split_at_first (sep : ascii) (h rest : string) (n : nat) :
  free_of (is_char sep) h = true ->
  Py.split sep (S n) (h ++ String sep rest) = h :: Py.split sep n rest.
Proof.
  induction h as [|c h IH]; simpl; intros F.
  - now rewrite Ascii.eqb_refl.
  - apply andb_prop in F as [Fc F]. unfold is_char in Fc.
    apply negb_true_iff in Fc. rewrite Fc, (IH F). reflexivity.
Qed.

Lemma split_of_join (sep : ascii) (parts : list string) :
  Forall (fun part => free_of (is_char sep) part = true) parts ->
  parts <> [] ->
  forall n, List.length parts <= S n ->
            Py.split sep n (Py.join (String sep "") parts) = parts.
Proof.
  unfold Py.join.
  induction 1 as [|h t Fh Ft IH]; intros N n L; [congruence|].
  destruct t as [|h2 t2].
  - simpl. now apply split_whole.
  - rewrite concat_two. destruct n as [|n]; [simpl in L; lia|].
    cbn [append]. rewrite split_at_first by assumption.
    rewrite IH; [reflexivity | discriminate | simpl in *; lia].
Qed.

(** X4. The cells of the header line, cut at its commas, when no path holds
    a comma: [time] and then one cell per field; but for a message without
    any field the line is [time,] and has a second, empty cell. *)
Theorem header_cells (fields : list string) (n : nat) :
  Forall (fun f => free_of (is_char ",") f = true) fields ->
  1 <= n -> List.length fields <= n ->
  Py.split "," n (header_text fields)
  = "time" :: match fields with [] => [""] | _ :: _ => fields end.
Proof.
  intros F N L. unfold header_text.
  destruct n as [|n]; [lia|].
  change ("time," ++ Py.join "," fields)
    with ("time" ++ String "," (Py.join "," fields)).
  rewrite split_at_first by reflexivity. f_equal.
  destruct fields as [|f fields]; [reflexivity|].
  apply (split_of_join "," (f :: fields)); [assumption | discriminate |].
  simpl in *. lia.
Qed.

Lemma header_cells_witness :
  Py.split "," 3 (header_text ["x"; "y.a"; "y.b"]) = ["time"; "x"; "y.a"; "y.b"]
  /\ Py.split "," 1 (header_text []) = ["time"; ""].
Proof.
  split.
  - apply (header_cells ["x"; "y.a"; "y.b"] 3);
      [repeat constructor | lia | simpl; lia].
  - apply (header_cells [] 1); [constructor | lia | simpl; lia].
Defined.

Lemma bind_ret_l {A B : Type} (a : A) (k : A -> io B) :
  bind ([], Some a) k = k a.
Proof. unfold bind. now destruct (k a). Qed.

(** X5. Entries on [/rosout] and [/parameter_events] have no effect at all:
    from any state the loop does on a stream what it does on the stream
    without them, event for event, with the same result or the same
    exception. *)
Theorem skipped_entries_have_no_effect
        (bag : string) (st : state) (entries : list entry) :
  dump_loop bag st entries = dump_loop bag st (processed entries).
Proof.
  revert st. induction entries as [|e rest IH]; intros st; [reflexivity|].
  unfold processed in *. cbn [filter].
  destruct (excluded (topic e)) eqn:X; cbn [negb dump_loop].
  - rewrite (dump_entry_excluded _ _ _ X), bind_ret_l. apply IH.
  - destruct (dump_entry bag st e) as [e1 [st1|]]; simpl; [|reflexivity].
    now rewrite IH.
Qed.

(** What a turn of the loop leaves behind when it raises. *)
Lemma dump_entry_raises (bag : string) (st : state) (e : entry) :
  excluded (topic e) = false ->
  snd (dump_entry bag st e) = None ->
  (row_time e = None \/ _gen_msg_values (msg e) "" = None)
  /\ fst (dump_entry bag st e)
     = match lookup (topic e) (file_map st) with
       | Some _ => []
       | None =>
           Open (next_fd st) (csv_path bag (topic e))
           :: match fields_of (msg e) with
              | Some fields => [Print (next_fd st) (Header (header_text fields))]
              | None => []
              end
       end.
Proof.
  Local Opaque Nat.modulo.
  intros X. unfold dump_entry, ensure_file. rewrite X.
  unfold fields_of, values_of.
  destruct (lookup (topic e) (file_map st)) as [fd|] eqn:L;
    unfold bind, emit, lift, ret.
  - rewrite L.
    destruct (row_time e) as [t|]; [|cbn; auto].
    destruct (_gen_msg_values (msg e) "") as [flat|]; [|cbn; auto].
    cbn. destruct (Nat.eqb (msg_cnt st mod 1000) 0); cbn; discriminate.
  - destruct (_gen_msg_values (msg e) "") as [flat|]; [|cbn; auto].
    cbn. rewrite String.eqb_refl.
    destruct (row_time e) as [t|]; [|cbn; auto].
    destruct (Nat.eqb (msg_cnt st mod 1000) 0); cbn; discriminate.
  Local Transparent Nat.modulo.
Qed.

(** X6. An exception is fatal and leaves a trace: when the turn on an entry
    raises, the time stamp or the flattening of that entry is what raised,
    nothing of the entries after it is done, and the events of the run are
    those of the entries before it followed by: nothing, if the channel had
    its file; the opening of the channel's file, if it was the flattening
    that raised; the opening and the header, if it was the time stamp. *)
Theorem exception_ends_the_run
        (bag : string) (before : list entry) (e : entry) (after : list entry)
        (evs0 : list event) (st : state) :
  dump_bag bag before = (evs0, Some st) ->
  excluded (topic e) = false ->
  snd (dump_entry bag st e) = None ->
  (row_time e = None \/ _gen_msg_values (msg e) "" = None)
  /\ dump_bag bag (before ++ e :: after)
     = ((evs0
         ++ match lookup (topic e) (file_map st) with
            | Some _ => []
            | None =>
                Open (next_fd st) (csv_path bag (topic e))
                :: match fields_of (msg e) with
                   | Some fields =>
                       [Print (next_fd st) (Header (header_text fields))]
                   | None => []
                   end
            end)%list, None).
Proof.
  intros E0 X R.
  destruct (dump_entry_raises bag st e X R) as [Why Evs].
  split; [exact Why|].
  unfold dump_bag in *. rewrite dump_loop_app, E0. cbn [bind dump_loop].
  destruct (dump_entry bag st e) as [e1 r]. simpl in R, Evs. subst r e1.
  reflexivity.
Qed.

Lemma exception_ends_the_run_witness :
  dump_bag "bag"
    (Samples.scenario_C
     ++ {| topic := "/bad";
           msg := Msg [("xs", "sequence<int32>", Leaf (SInt 1))];
           ts := 3 |} :: Samples.scenario_C)
  = ([Open 0 "bag/imu.csv"; Print 0 (Header "time,y.a");
      Print 0 (Row (PFloat 0) [Leaf (SInt 1)]); Progress (PFloat 0);
      Print 0 (Row (PFloat 0.5) [Leaf (SInt 2)]);
      Open 1 "bag/bad.csv"], None).
Proof.
  exact (proj2 (exception_ends_the_run "bag" Samples.scenario_C
                  {| topic := "/bad";
                     msg := Msg [("xs", "sequence<int32>", Leaf (SInt 1))];
                     ts := 3 |}
                  Samples.scenario_C _ _ eq_refl eq_refl eq_refl)).
Defined.

Lemma headerless_times (entries : list entry) (times : list pynum) :
  Forall (fun e => hasattr (msg e) "header" = false) entries ->
  map row_time entries = map Some times ->
  times = map (fun e => PInt (ts e)) entries.
Proof.
  intros H. revert times.
  induction H as [|e entries He _ IH]; intros [|t times]; simpl;
    try discriminate; [reflexivity|].
  intros E. injection E as Et E. rewrite (IH _ E). f_equal.
  unfold row_time in Et. unfold hasattr in He.
  destruct (getattr (msg e) "header"); [discriminate | congruence].
Qed.

(** X7. When no message of the stream has a [header], a run that returns
    stores in every row the exact integer difference between the stream time
    stamp of its entry and that of the first entry processed: no double is
    involved. *)
Theorem headerless_rows_are_int_differences
        (bag : string) (entries : list entry) (evs : list event) (st' : state) :
  Forall (fun e => hasattr (msg e) "header" = false) entries ->
  dump_bag bag entries = (evs, Some st') ->
  row_times evs
  = map (fun e => PInt (ts e - match processed entries with
                               | first :: _ => ts first
                               | [] => 0
                               end)%Z)
        (processed entries).
Proof.
  intros H E.
  destruct (dump_loop_times _ _ _ _ _ E) as (times & Ht & _ & _ & Hr).
  assert (Hp : Forall (fun e => hasattr (msg e) "header" = false)
                      (processed entries)).
  { apply Forall_forall. intros e I. apply filter_In in I as [I _].
    rewrite Forall_forall in H. auto. }
  rewrite (headerless_times _ _ Hp Ht) in Hr.
  rewrite Hr. unfold origin_of. simpl.
  destruct (processed entries) as [|first rest]; [reflexivity|].
  simpl. rewrite map_map. reflexivity.
Qed.

Lemma headerless_rows_are_int_differences_witness :
  row_times (fst (dump_bag "bag" Samples.clash)) = [PInt 0; PInt 5; PInt 9].
Proof.
  refine (headerless_rows_are_int_differences "bag" Samples.clash _ _ _ _).
  - repeat constructor.
  - reflexivity.
Defined.

Lemma lookup_str_in (name : string) (m : list (string * nat)) :
  is_some (lookup name m) = Py.str_in name (map fst m).
Proof.
  unfold Py.str_in. induction m as [|[k fd] m IH]; simpl; [reflexivity|].
  rewrite (String.eqb_sym name k).
  destruct (String.eqb k name); simpl; auto.
Qed.

Lemma opens_app (a b : list event) :
  opens (a ++ b) = (opens a ++ opens b)%list.
Proof. apply flat_map_app. Qed.

Lemma dump_loop_channels (bag : string) (entries : list entry) :
  forall st evs st',
    dump_loop bag st entries = (evs, Some st') ->
    opens evs
    = combine (seq (next_fd st)
                   (List.length (new_channels (map fst (file_map st)) entries)))
              (map (csv_path bag) (new_channels (map fst (file_map st)) entries))
    /\ next_fd st'
       = next_fd st + List.length (new_channels (map fst (file_map st)) entries)
    /\ file_map st'
       = (rev (combine (new_channels (map fst (file_map st)) entries)
                       (seq (next_fd st)
                            (List.length
                               (new_channels (map fst (file_map st)) entries))))
          ++ file_map st)%list.
Proof.
  Local Opaque Nat.modulo.
  induction entries as [|e rest IH]; intros st evs st' E.
  - injection E as <- <-. simpl. repeat split. lia.
  - simpl in E. apply bind_some in E as (e1 & st1 & e2 & E1 & E2 & ->).
    cbn [new_channels].
    destruct (excluded (topic e)) eqn:X; cbn [orb].
    + rewrite (dump_entry_excluded _ _ _ X) in E1. injection E1 as <- <-.
      apply (IH _ _ _ E2).
    + destruct (dump_entry_inv _ _ _ _ _ X E1)
        as (t & vals & fd & opening & _ & _ & _ & _ & _ & -> & Hopen).
      destruct (IH _ _ _ E2) as (O2 & N2 & F2).
      rewrite <- lookup_str_in.
      destruct Hopen as [(L & -> & FM & NF) | (L & -> & (fields & _ & ->) & FM & NF)];
        rewrite L; cbn [is_some]; rewrite FM, NF in *.
      * split; [|auto]. rewrite opens_app, O2.
        simpl. now destruct (Nat.eqb (msg_cnt st mod 1000) 0).
      * cbn [map fst] in *. cbn [List.length seq combine map rev].
        split; [|split].
        -- rewrite opens_app, O2. simpl.
           now destruct (Nat.eqb (msg_cnt st mod 1000) 0).
        -- lia.
        -- rewrite F2, <- app_assoc. reflexivity.
  Local Transparent Nat.modulo.
Qed.

(** X8. In a run that returns, one file is opened per channel that is not
    skipped, in the order the channels first appear, the file objects being
    numbered from 0; the run ends with as many file objects as such channels,
    the map from channels to file objects built in that order, and the
    counter at the number of entries processed. *)
Theorem one_file_per_channel
        (bag : string) (entries : list entry) (evs : list event) (st' : state) :
  dump_bag bag entries = (evs, Some st') ->
  opens evs
  = combine (seq 0 (List.length (new_channels [] entries)))
            (map (csv_path bag) (new_channels [] entries))
  /\ next_fd st' = List.length (new_channels [] entries)
  /\ file_map st'
     = rev (combine (new_channels [] entries)
                    (seq 0 (List.length (new_channels [] entries))))
  /\ msg_cnt st' = List.length (processed entries).
Proof.
  intros E.
  destruct (dump_loop_channels _ _ _ _ _ E) as (O & N & F).
  destruct (dump_loop_times _ _ _ _ _ E) as (times & Ht & _ & Hc & _).
  simpl in *. rewrite app_nil_r in F.
  repeat split; try assumption.
  rewrite Hc, <- (length_map row_time), Ht, length_map. reflexivity.
Qed.

Lemma one_file_per_channel_witness :
  opens (fst (dump_bag "bag" Samples.clash))
  = [(0, "bag/a_b.csv"); (1, "bag/a_b.csv")]
  /\ new_channels [] Samples.clash = ["/a/b"; "/a_b"].
Proof.
  split; [|reflexivity].
  exact (proj1 (one_file_per_channel "bag" Samples.clash _ _ eq_refl)).
Defined.

Lemma dump_loop_origin (bag : string) (entries : list entry)
      (st st' : state) (evs : list event) (s : pynum) :
  start_time st = Some s ->
  dump_loop bag st entries = (evs, Some st') ->
  start_time st' = Some s.
Proof.
  intros S E.
  destruct (dump_loop_times _ _ _ _ _ E) as (times & _ & Hs & _).
  rewrite Hs. unfold origin_of. now rewrite S.
Qed.

Lemma filter_rows (rows : list line) :
  Forall (fun l => is_row l = true) rows -> filter is_row rows = rows.
Proof.
  induction 1 as [|l rows Hl _ IH]; simpl; [reflexivity|].
  now rewrite Hl, IH.
Qed.

(** The rows of a channel, from any consistent state. *)
Lemma dump_loop_rows (bag : string) (entries : list entry) :
  forall st evs st',
    consistent st ->
    dump_loop bag st entries = (evs, Some st') ->
    forall o, start_time st' = Some o ->
    forall name fd,
      lookup name (file_map st') = Some fd ->
      map Some (filter is_row (written fd evs))
      = map (row_of o) (on_channel name entries).
Proof.
  Local Opaque Nat.modulo.
  induction entries as [|e rest IH]; intros st evs st' C E o So name fd L.
  - injection E as <- <-. reflexivity.
  - simpl in E. apply bind_some in E as (e1 & st1 & e2 & E1 & E2 & ->).
    rewrite written_app, filter_app, map_app, on_channel_cons.
    destruct (excluded (topic e)) eqn:X.
    + rewrite (dump_entry_excluded _ _ _ X) in E1. injection E1 as <- <-.
      destruct (dump_loop_files _ _ _ _ _ C E2) as ([C1' _] & _).
      destruct (String.eqb (topic e) name) eqn:Q.
      * apply String.eqb_eq in Q. subst name.
        destruct (C1' _ _ L). congruence.
      * simpl. now apply (IH _ _ _ C E2).
    + destruct (dump_entry_files _ _ _ _ _ C X E1) as (C1 & _).
      destruct (dump_loop_files _ _ _ _ _ C1 E2) as ([_ Inj] & _ & Mono & _).
      destruct (dump_entry_inv _ _ _ _ _ X E1)
        as (t & vals & fd_e & opening & Rt & Vt & L1 & S1 & _ & -> & Hopen).
      rewrite (dump_loop_origin _ _ _ _ _ _ S1 E2) in So. injection So as <-.
      pose proof (IH _ _ _ C1 E2 _ (dump_loop_origin _ _ _ _ _ _ S1 E2) name fd L)
        as IHr.
      assert (W : filter is_row
                    (written fd
                       (opening
                        ++ Print fd_e
                             (Row (py_sub t match start_time st with
                                            | Some s => s | None => t end) vals)
                        :: (if Nat.eqb (msg_cnt st mod 1000) 0
                            then [Progress (py_sub t match start_time st with
                                                     | Some s => s | None => t
                                                     end)]
                            else [])))
                  = if Nat.eqb fd_e fd
                    then [Row (py_sub t match start_time st with
                                      | Some s => s | None => t end) vals]
                    else []).
      { destruct Hopen as [(_ & -> & _) | (_ & _ & (fields & _ & ->) & _)];
          simpl; destruct (Nat.eqb fd_e fd);
            destruct (Nat.eqb (msg_cnt st mod 1000) 0); reflexivity. }
      rewrite W, IHr.
      destruct (String.eqb (topic e) name) eqn:Q.
      * apply String.eqb_eq in Q. subst name.
        apply Mono in L1. assert (fd_e = fd) by congruence. subst fd_e.
        rewrite Nat.eqb_refl. cbn [map app]. unfold row_of at 2.
        rewrite Rt, Vt. reflexivity.
      * destruct (Nat.eqb fd_e fd) eqn:Qf; [|reflexivity].
        apply Nat.eqb_eq in Qf. subst fd_e. apply Mono in L1.
        apply String.eqb_neq in Q. destruct Q. now apply (Inj _ _ fd).
  Local Transparent Nat.modulo.
Qed.

(** X9. The whole file of a channel, in a run that returns: the header of
    the channel's first entry, then for each entry of the channel, in stream
    order, the row of its own flattened values (whatever its shape) under
    its time minus the origin of the run. *)
Theorem channel_file_contents
        (bag : string) (entries : list entry) (evs : list event) (st' : state)
        (name : string) (fd : nat) :
  dump_bag bag entries = (evs, Some st') ->
  lookup name (file_map st') = Some fd ->
  exists origin first rest fields rows,
    start_time st' = Some origin
    /\ on_channel name entries = first :: rest
    /\ fields_of (msg first) = Some fields
    /\ written fd evs = Header (header_text fields) :: rows
    /\ map Some rows = map (row_of origin) (first :: rest).
Proof.
  intros E L.
  assert (C : consistent initial) by (split; simpl; intros; discriminate).
  destruct (dump_loop_files _ _ _ _ _ C E) as (_ & _ & _ & _ & _ & F).
  destruct (F name fd L)
    as (rows & R & Len & [[L0 _] | (_ & _ & first & rest & fields & O & Fd & W)]);
    [discriminate|].
  destruct (dump_loop_times _ _ _ _ _ E) as (times & Ht & Hs & _).
  assert (In first (processed entries)) as I.
  { assert (I : In first (on_channel name entries)) by (rewrite O; now left).
    apply filter_In in I as [I Q]. apply String.eqb_eq in Q.
    apply filter_In. split; [assumption|].
    destruct (dump_loop_files _ _ _ _ _ C E) as ([C1 _] & _).
    destruct (C1 _ _ L) as [_ X]. now rewrite Q, X. }
  destruct times as [|t0 times].
  { destruct (processed entries); [destruct I | discriminate]. }
  exists t0, first, rest, fields, rows.
  split; [exact Hs|]. split; [exact O|]. split; [exact Fd|]. split; [exact W|].
  rewrite <- O, <- (dump_loop_rows _ _ _ _ _ C E t0 Hs name fd L), W.
  simpl. now rewrite (filter_rows _ R).
Qed.

Lemma channel_file_contents_witness :
  exists origin first rest fields rows,
    Some (PFloat 10) = Some origin
    /\ on_channel "/imu" Samples.scenario_C = first :: rest
    /\ fields_of (msg first) = Some fields
    /\ written 0 (fst (dump_bag "bag" Samples.scenario_C))
       = Header (header_text fields) :: rows
    /\ map Some rows = map (row_of origin) (first :: rest).
Proof.
  exact (channel_file_contents "bag" Samples.scenario_C _ _ "/imu" 0
                               eq_refl eq_refl).
Defined.

(** *** File names *)

Lemma length_append (a b : string) :
  String.length (a ++ b) = String.length a + String.length b.
Proof. induction a; simpl; auto. Qed.

Lemma append_cancel_r (a b c : string) : a ++ c = b ++ c -> a = b.
Proof.
  revert b. induction a as [|x a IH]; intros [|y b] H; simpl in *.
  - reflexivity.
  - apply (f_equal String.length) in H. simpl in H.
    rewrite length_append in H. lia.
  - apply (f_equal String.length) in H. simpl in H.
    rewrite length_append in H. lia.
  - injection H as -> H. f_equal. now apply IH.
Qed.

Lemma replace_free (a b : ascii) (s : string) :
  Ascii.eqb b a = false -> free_of (is_char a) (Py.replace a b s) = true.
Proof.
  intros N. induction s as [|x s IH]; simpl; [reflexivity|].
  rewrite IH, andb_true_r. unfold is_char.
  destruct (Ascii.eqb x a) eqn:Q; [now rewrite N | now rewrite Q].
Qed.

Lemma lstrip_free (p : ascii -> bool) (c : ascii) (s : string) :
  free_of p s = true -> free_of p (Py.lstrip c s) = true.
Proof.
  induction s as [|x s IH]; simpl; [reflexivity|].
  intros F. destruct (Ascii.eqb x c); [|exact F].
  apply andb_prop in F as [_ F]. auto.
Qed.

Lemma replace_inj (a b : ascii) (s1 s2 : string) :
  free_of (is_char b) s1 = true -> free_of (is_char b) s2 = true ->
  Py.replace a b s1 = Py.replace a b s2 -> s1 = s2.
Proof.
  revert s2. induction s1 as [|x s1 IH]; intros [|y s2]; simpl;
    try discriminate; [reflexivity|].
  intros F1 F2 E. injection E as Ec E.
  apply andb_prop in F1 as [Fx F1]. apply andb_prop in F2 as [Fy F2].
  rewrite (IH s2 F1 F2 E). f_equal.
  unfold is_char in Fx, Fy. apply negb_true_iff in Fx, Fy.
  destruct (Ascii.eqb x a) eqn:Qx; destruct (Ascii.eqb y a) eqn:Qy.
  - apply Ascii.eqb_eq in Qx, Qy. congruence.
  - subst b. now rewrite Ascii.eqb_refl in Fy.
  - subst b. now rewrite Ascii.eqb_refl in Fx.
  - assumption.
Qed.

(** X10. The file of a channel lies directly in the bag directory and is
    named [*.csv]: the name that [csv_path] puts between [bag_path/] and
    [.csv] holds no [/], whatever the channel name; and leading slashes of
    the channel name do not count. *)
Theorem csv_path_is_flat (bag topic : string) :
  csv_path bag topic = bag ++ "/" ++ csv_name topic ++ ".csv"
  /\ free_of (is_char "/") (csv_name topic) = true
  /\ csv_path bag ("/" ++ topic) = csv_path bag topic.
Proof.
  split; [reflexivity|]. split; [|reflexivity].
  now apply replace_free.
Qed.

(** X11. Two channel names without an underscore get the same file exactly
    when they differ by leading slashes only: a clash between channels that
    differ elsewhere needs an underscore in one of them. *)
Theorem csv_path_clash_needs_underscore (bag t1 t2 : string) :
  free_of (is_char "_") t1 = true ->
  free_of (is_char "_") t2 = true ->
  (csv_path bag t1 = csv_path bag t2
   <-> Py.lstrip "/" t1 = Py.lstrip "/" t2).
Proof.
  intros F1 F2. unfold csv_path. split.
  - intros E. apply append_cancel_l in E. simpl in E. injection E as E.
    apply append_cancel_r in E.
    apply (replace_inj "/" "_"); auto using lstrip_free.
  - now intros ->.
Qed.

Lemma csv_path_clash_needs_underscore_witness :
  free_of (is_char "_") "//imu/data" = true
  /\ free_of (is_char "_") "/imu/data" = true
  /\ (csv_path "bag" "//imu/data" = csv_path "bag" "/imu/data"
      <-> Py.lstrip "/" "//imu/data" = Py.lstrip "/" "/imu/data").
Proof.
  split; [reflexivity|]. split; [reflexivity|].
  exact (csv_path_clash_needs_underscore "bag" "//imu/data" "/imu/data"
                                         eq_refl eq_refl).
Defined.

(** *** Labels *)

(** X12. [split] is the only cut of its kind: components that join back to
    the string with the separator, at most [maxsplit + 1] of them, all but
    the last free of the separator, and the last free of it too when fewer
    than [maxsplit] cuts were made, are the components [split] returns. *)
Theorem split_unique (sep : ascii) (parts : list string) :
  forall n,
    parts <> [] ->
    List.length parts <= S n ->
    (forall i, S i < List.length parts ->
               free_of (is_char sep) (nth i parts "") = true) ->
    (List.length parts <= n ->
     free_of (is_char sep) (last parts "") = true) ->
    Py.split sep n (Py.join (String sep "") parts) = parts.
Proof.
  unfold Py.join.
  induction parts as [|h t IH]; intros n N L F Fl; [congruence|].
  destruct t as [|h2 t2].
  - simpl. destruct n as [|n]; [apply split_zero|].
    apply split_whole. apply Fl. simpl. lia.
  - rewrite concat_two. destruct n as [|n]; [simpl in L; lia|].
    cbn [append].
    rewrite split_at_first by (apply (F 0); simpl; lia).
    f_equal. apply IH.
    + discriminate.
    + simpl in *. lia.
    + intros i Hi. apply (F (S i)). simpl in *. lia.
    + intros Hl. apply Fl. simpl in *. lia.
Qed.

Lemma split_unique_witness :
  Py.split "." 2 (Py.join "." ["a"; "b"; "c.d"]) = ["a"; "b"; "c.d"].
Proof.
  apply (split_unique "." ["a"; "b"; "c.d"] 2).
  - discriminate.
  - simpl. lia.
  - intros [|[|i]] Hi; try reflexivity. simpl in Hi. lia.
  - simpl. lia.
Defined.

Lemma indexes_plain (col : string) :
  col <> "time" -> col <> "timestamp" -> indexes col = Py.split "." 2 col.
Proof.
  intros H1 H2. unfold indexes.
  apply String.eqb_neq in H1, H2. now rewrite H1, H2.
Qed.

Lemma indexes_join (col : string) :
  col <> "time" -> col <> "timestamp" -> Py.join "." (indexes col) = col.
Proof.
  intros H1 H2. rewrite (indexes_plain col H1 H2). apply (split_join "." 2).
Qed.

(** X13. Two column names get the same label exactly when they are the same
    name, or one is [time] and the other [RosBag.timestamp], or one is
    [timestamp] and the other [IMUDataArray.timestamp]: apart from these two
    pairs the labels tell the columns apart. *)
Theorem indexes_clashes (c1 c2 : string) :
  indexes c1 = indexes c2
  <-> c1 = c2
      \/ (c1 = "time" /\ c2 = "RosBag.timestamp")
      \/ (c1 = "RosBag.timestamp" /\ c2 = "time")
      \/ (c1 = "timestamp" /\ c2 = "IMUDataArray.timestamp")
      \/ (c1 = "IMUDataArray.timestamp" /\ c2 = "timestamp").
Proof.
  split.
  - intros E.
    destruct (string_dec c1 "time") as [->|N1];
      [|destruct (string_dec c1 "timestamp") as [->|N1']];
      (destruct (string_dec c2 "time") as [->|N2];
       [|destruct (string_dec c2 "timestamp") as [->|N2']]);
      try (now left); try discriminate E.
    + right. left. split; [reflexivity|].
      rewrite <- (indexes_join c2 N2 N2'), <- E. reflexivity.
    + right. right. right. left. split; [reflexivity|].
      rewrite <- (indexes_join c2 N2 N2'), <- E. reflexivity.
    + right. right. left. split; [|reflexivity].
      rewrite <- (indexes_join c1 N1 N1'), E. reflexivity.
    + right. right. right. right. split; [|reflexivity].
      rewrite <- (indexes_join c1 N1 N1'), E. reflexivity.
    + left. rewrite <- (indexes_join c1 N1 N1'), <- (indexes_join c2 N2 N2').
      now rewrite E.
  - intros [->|[[-> ->]|[[-> ->]|[[-> ->]|[-> ->]]]]]; reflexivity.
Qed.

(** ** The script *)

Lemma dump_entry_no_pandas (bag : string) (st : state) (e : entry) :
  Forall (fun ev => is_pandas ev = false) (fst (dump_entry bag st e)).
Proof.
  Local Opaque Nat.modulo.
  unfold dump_entry, ensure_file, bind, emit, lift, ret.
  destruct (excluded (topic e)); [constructor|].
  destruct (lookup (topic e) (file_map st)) as [fd|] eqn:L.
  - rewrite L.
    destruct (row_time e); [|constructor].
    destruct (values_of (msg e)); [|constructor].
    destruct (Nat.eqb (msg_cnt st mod 1000) 0); cbn; repeat constructor.
  - destruct (fields_of (msg e)); [|cbn; repeat constructor].
    cbn. rewrite String.eqb_refl.
    destruct (row_time e); [|cbn; repeat constructor].
    destruct (values_of (msg e)); [|cbn; repeat constructor].
    destruct (Nat.eqb (msg_cnt st mod 1000) 0); cbn; repeat constructor.
  Local Transparent Nat.modulo.
Qed.

Lemma dump_loop_no_pandas (bag : string) (entries : list entry) :
  forall st, Forall (fun ev => is_pandas ev = false)
                    (fst (dump_loop bag st entries)).
Proof.
  induction entries as [|e rest IH]; intros st; simpl; [constructor|].
  pose proof (dump_entry_no_pandas bag st e) as H.
  destruct (dump_entry bag st e) as [e1 [st1|]]; simpl in *; [|assumption].
  specialize (IH st1).
  destruct (dump_loop bag st1 rest) as [e2 r]. simpl in *.
  apply Forall_app. auto.
Qed.

(** X14. The exit status of the script is 0 exactly when it is given one
    argument and [dump_bag] returns on it; otherwise the status is 1 and
    pandas is never called: with a wrong number of arguments nothing but the
    usage line happens and the directory is left as it was, and after an
    exception in the export the regrouper does not run. *)
Theorem main_exit_status
        (disk cell : Type)
        (read_csv : disk -> string -> string + Frame string cell)
        (to_csv : disk -> string -> Frame (list string) cell
                  -> disk * option string)
        (glob_csv : disk -> string -> list string)
        (settle : disk -> list event -> disk)
        (argv : list string) (d : disk) (entries : list entry) :
  let run := main disk cell read_csv to_csv glob_csv settle argv d entries in
  (snd run = 0%Z
   <-> exists prog bag,
        argv = [prog; bag] /\ is_some (snd (dump_bag bag entries)) = true)
  /\ (snd run <> 0%Z ->
      snd run = 1%Z
      /\ Forall (fun ev => is_pandas ev = false) (fst (fst run)))
  /\ (List.length argv <> 2 ->
      run = ([Complain ("Usage: " ++ hd "" argv ++ " <bag directory>")], d, 1%Z)).
Proof.
  cbv zeta. unfold main.
  destruct argv as [|prog [|bag [|x argv]]].
  - split; [|split].
    + split; [discriminate | now intros (? & ? & ? & _)].
    + intros _. split; [reflexivity | repeat constructor].
    + reflexivity.
  - split; [|split].
    + split; [discriminate | now intros (? & ? & ? & _)].
    + intros _. split; [reflexivity | repeat constructor].
    + reflexivity.
  - pose proof (dump_loop_no_pandas bag entries initial) as N.
    unfold dump_bag in *.
    destruct (dump_loop bag initial entries) as [evs [st'|]] eqn:D; simpl in *.
    + destruct (add_multi_indices disk cell read_csv to_csv glob_csv
                  (settle d evs) bag) as [evs' d'].
      simpl. split; [|split].
      * split; [|reflexivity]. intros _. exists prog, bag.
        rewrite D. auto.
      * now intros H.
      * now intros H.
    + split; [|split].
      * split; [discriminate|].
        intros (p & b & E & S). injection E as <- <-.
        rewrite D in S. discriminate.
      * intros _. split; [reflexivity | exact N].
      * now intros H.
  - split; [|split].
    + split; [discriminate | now intros (? & ? & ? & _)].
    + intros _. split; [reflexivity | repeat constructor].
    + reflexivity.
Qed.

Lemma main_exit_status_witness :
  snd (Pandas.run_main "nan" (fun _ _ => []) ["rosbag2csv.py"] []
                       Samples.scenario_C) <> 0%Z
  /\ Pandas.run_main "nan" (fun _ _ => []) ["rosbag2csv.py"] []
                     Samples.scenario_C
     = ([Complain "Usage: rosbag2csv.py <bag directory>"], [], 1%Z).
Proof.
  split; [discriminate|].
  refine (proj2 (proj2 (main_exit_status
                          Pandas.disk string Pandas.read_csv
                          (Pandas.to_csv "nan") Pandas.glob_csv
                          (Pandas.settle (fun _ _ => []))
                          ["rosbag2csv.py"] [] Samples.scenario_C)) _).
  simpl. lia.
Defined.

Lemma startswith_append (p s : string) : Py.startswith (p ++ s) p = true.
Proof.
  unfold Py.startswith. induction p as [|a p IH]; simpl.
  - now destruct s.
  - destruct (ascii_dec a a); [assumption | congruence].
Qed.

(** X15. Files that cannot be read are not written: if [read_csv] raises on
    every file of the list, the pass calls [to_csv] on none, prints one
    [Error:] report per file and leaves the directory as it found it. *)
Theorem unreadable_files_are_left_alone
        (disk cell : Type)
        (read_csv : disk -> string -> string + Frame string cell)
        (to_csv : disk -> string -> Frame (list string) cell
                  -> disk * option string)
        (d : disk) (flist : list string) :
  Forall (fun file => raised (read_csv d file) = true) flist ->
  snd (regroup_all disk cell read_csv to_csv d flist) = d
  /\ Forall (fun ev => is_to_csv ev = false)
            (fst (regroup_all disk cell read_csv to_csv d flist))
  /\ Forall (fun text => Py.startswith text "Error: " = true)
            (reports (fst (regroup_all disk cell read_csv to_csv d flist)))
  /\ List.length (reports (fst (regroup_all disk cell read_csv to_csv d flist)))
     = List.length flist.
Proof.
  induction 1 as [|file rest Hf _ IH]; simpl.
  - repeat split; constructor.
  - unfold guarded, regroup_file.
    destruct (read_csv d file) as [e|df]; [|discriminate]. simpl.
    destruct IH as (D & T & R & L).
    destruct (regroup_all disk cell read_csv to_csv d rest) as [evs' d'].
    simpl in *. repeat split; auto.
    constructor; [|assumption].
    exact (startswith_append "Error: " e).
Qed.

Lemma unreadable_files_are_left_alone_witness :
  Forall (fun file => raised (Pandas.read_csv Samples.old_dir file) = true)
         ["bag/old.csv"; "bag/none.csv"]
  /\ snd (Pandas.run_regroup_all "nan" Samples.old_dir
                                 ["bag/old.csv"; "bag/none.csv"])
     = Samples.old_dir.
Proof.
  assert (H : Forall (fun file => raised (Pandas.read_csv Samples.old_dir file)
                                  = true)
                     ["bag/old.csv"; "bag/none.csv"])
    by (repeat constructor).
  split; [exact H|].
  exact (proj1 (unreadable_files_are_left_alone
                  Pandas.disk string Pandas.read_csv (Pandas.to_csv "nan")
                  Samples.old_dir ["bag/old.csv"; "bag/none.csv"] H)).
Defined.

(** *** Counting the progress markers *)

Lemma marker_step (c : nat) :
  (S c + 999) / 1000
  = (c + 999) / 1000 + (if Nat.eqb (c mod 1000) 0 then 1 else 0).
Proof.
  pose proof (Nat.div_mod_eq c 1000) as H.
  pose proof (Nat.mod_upper_bound c 1000 ltac:(lia)) as B.
  set (q := c / 1000) in *. set (r := c mod 1000) in *.
  rewrite H.
  destruct (Nat.eqb r 0) eqn:R.
  - apply Nat.eqb_eq in R. rewrite R.
    replace (S (1000 * q + 0) + 999) with (0 + (S q) * 1000) by lia.
    replace (1000 * q + 0 + 999) with (999 + q * 1000) by lia.
    rewrite !Nat.div_add by lia. simpl. lia.
  - apply Nat.eqb_neq in R.
    replace (S (1000 * q + r) + 999) with (r + (S q) * 1000) by lia.
    replace (1000 * q + r + 999) with ((r - 1) + (S q) * 1000) by lia.
    rewrite !Nat.div_add by lia.
    rewrite (Nat.div_small r 1000), (Nat.div_small (r - 1) 1000) by lia.
    lia.
Qed.

Lemma dump_loop_markers (bag : string) (entries : list entry) :
  forall st evs st',
    dump_loop bag st entries = (evs, Some st') ->
    List.length (markers evs) + (msg_cnt st + 999) / 1000
    = (msg_cnt st' + 999) / 1000.
Proof.
  induction entries as [|e rest IH]; intros st evs st' E.
  - injection E as <- <-. reflexivity.
  - simpl in E. apply bind_some in E as (e1 & st1 & e2 & E1 & E2 & ->).
    rewrite markers_app, length_app, <- (IH _ _ _ E2).
    destruct (excluded (topic e)) eqn:X.
    + rewrite (dump_entry_excluded _ _ _ X) in E1. injection E1 as <- <-.
      reflexivity.
    + destruct (dump_entry_rows _ _ _ _ _ X E1) as (t & _ & S1 & C1 & Rows).
      destruct (origin_of st [t]) as [o|] eqn:O.
      * destruct (Rows o eq_refl) as [_ M]. rewrite M, C1, marker_step.
        generalize ((msg_cnt st + 999) / 1000). intros k.
        destruct (Nat.eqb (msg_cnt st mod 1000) 0); cbn [List.length]; lia.
      * unfold origin_of in O. simpl in O.
        destruct (start_time st); discriminate.
Qed.

(** X16. A run that returns prints one progress marker per started
    thousand of processed entries: the number of markers is the number of
    entries processed, divided by 1000 and rounded up. *)
Theorem markers_per_started_thousand
        (bag : string) (entries : list entry) (evs : list event) (st' : state) :
  dump_bag bag entries = (evs, Some st') ->
  List.length (markers evs) = (List.length (processed entries) + 999) / 1000.
Proof.
  intros E.
  pose proof (dump_loop_markers _ _ _ _ _ E) as M.
  destruct (dump_loop_times _ _ _ _ _ E) as (times & Ht & _ & Hc & _).
  assert (L : msg_cnt st' = List.length (processed entries)).
  { rewrite Hc, <- (length_map row_time), Ht, length_map. reflexivity. }
  rewrite <- L.
  replace ((msg_cnt initial + 999) / 1000) with 0 in M by reflexivity. lia.
Qed.

Lemma markers_per_started_thousand_witness :
  List.length (markers (fst (dump_bag "bag" Samples.clash))) = 1.
Proof.
  exact (markers_per_started_thousand "bag" Samples.clash _ _ eq_refl).
Defined.
